(** * metaflow-js: [exception.ts] and [do.ts] over a small model of JavaScript

    The development embeds the two component families of the library:

    - [Exception]: [Throw], [Try], the methods of [TryChain] ([map],
      [case], [pick], [tap], [done]) and [isErrorOf];
    - [Thunk] and [AsyncThunk]: the deferred pipelines started by [Do],
      with [done], [pipe], [pipeAwait], [rcall], [rcallAwait] and [tap].

    JavaScript is modelled by a state-and-exception monad.  A computation
    takes the machine state and gives back a completion (normal or thrown)
    together with the new state.  For [exception.ts] the state holds the
    [TryChain] objects by address, so that two chains can be told apart;
    for [do.ts] it holds the microtask clock.

    [TryAsync], [tapAwait] and [tap.ts] are not modelled: they need
    [Promise.prototype.then] or an [await] outside [done]. *)

From Stdlib Require Import ZArith String DecimalString List Bool Lia PeanoNat.
Import ListNotations.

Set Implicit Arguments.

(* ================================================================== *)
(** ** The fragment of JavaScript the library relies on *)

(** Prototype objects are told apart by an identity.  A prototype object
    carries its own identity and its [[Prototype]] chain, nearest first. *)
Definition proto_id := nat.

Record prototype : Type := Prototype {
  proto_self : proto_id;
  proto_chain : list proto_id
}.

Definition Object_prototype : prototype := Prototype 0 [].
Definition Error_prototype : prototype := Prototype 1 [0].
Definition TypeError_prototype : prototype := Prototype 2 [1; 0].
Definition SyntaxError_prototype : prototype := Prototype 3 [1; 0].
Definition Promise_prototype : prototype := Prototype 4 [0].
Definition TryChain_prototype : prototype := Prototype 5 [0].

(** First-order values.  Numbers are the integers (the safe-integer range
    of doubles, where [+] and [*] are exact).  An ordinary object is its
    prototype chain and a message.  A promise is described by the microtask
    tick at which it is settled, whether it is fulfilled or rejected, and
    the value or reason; a promise that is already settled when it is made
    has tick [0].  Functions and arrays are not first-order: see
    [argument]. *)
Inductive value : Type :=
| VUndefined
| VNull
| VBool (b : bool)
| VNum (n : Z)
| VStr (s : string)
| VObject (chain : list proto_id) (message : string)
| VRef (address : nat)
| VPromise (settle_at : nat) (fulfilled : bool) (payload : value).

(** [new C(message)] for a constructor whose [prototype] property is [P]. *)
Definition construct (P : prototype) (message : string) : value :=
  VObject (proto_self P :: proto_chain P) message.

(** [Promise.resolve(v)] for a plain [v]: a promise already fulfilled. *)
Definition Promise_resolve (v : value) : value := VPromise 0 true v.

(** ToBoolean. *)
Definition ToBoolean (v : value) : bool :=
  match v with
  | VUndefined | VNull => false
  | VBool b => b
  | VNum n => negb (Z.eqb n 0)
  | VStr s => negb (String.eqb s EmptyString)
  | VObject _ _ | VRef _ | VPromise _ _ _ => true
  end.

(** The [[Prototype]] chain of a value that is an Object; [None] for a
    primitive. *)
Definition chain_of (v : value) : option (list proto_id) :=
  match v with
  | VObject chain _ => Some chain
  | VRef _ => Some (proto_self TryChain_prototype :: proto_chain TryChain_prototype)
  | VPromise _ _ _ => Some (proto_self Promise_prototype :: proto_chain Promise_prototype)
  | _ => None
  end.

(** [typeof v?.then === "function"]: of the modelled values only promises
    have a [then] method. *)
Definition is_thenable (v : value) : bool :=
  match v with
  | VPromise _ _ _ => true
  | _ => false
  end.

(** Completions. *)
Inductive completion (A : Type) : Type :=
| Normal (a : A)
| Thrown (e : value).

Arguments Normal {A} a.
Arguments Thrown {A} e.

(** Computations over a machine state [S]. *)
Definition M (S A : Type) : Type := S -> completion A * S.

Definition ret {S A : Type} (a : A) : M S A := fun s => (Normal a, s).

Definition throw {S A : Type} (e : value) : M S A := fun s => (Thrown e, s).

Definition bind {S A B : Type} (m : M S A) (k : A -> M S B) : M S B :=
  fun s =>
    match m s with
    | (Normal a, s') => k a s'
    | (Thrown e, s') => (Thrown e, s')
    end.

Declare Scope js_scope.
Delimit Scope js_scope with js.
Notation "x <- m ;; k" := (bind m (fun x => k))
  (at level 100, m at next level, right associativity) : js_scope.
Open Scope js_scope.

(** [P instanceof C] where [P] is the value of a function's [prototype]
    property ([None] when the property is absent, as for an arrow function)
    and [C] a constructor with prototype object [Cp]: OrdinaryHasInstance
    answers [false] for a non-object and otherwise walks the chain. *)
Definition prototype_instanceof (P : option prototype) (Cp : prototype) : bool :=
  match P with
  | None => false
  | Some p => existsb (Nat.eqb (proto_self Cp)) (proto_chain p)
  end.

(** [Object.getPrototypeOf(P)]: ToObject throws a TypeError on [undefined];
    the result is the identity of the parent, [None] standing for [null]. *)
Definition getPrototypeOf {S : Type} (P : option prototype) : M S (option proto_id) :=
  match P with
  | None => throw (construct TypeError_prototype "Cannot convert undefined or null to object")
  | Some p => ret (hd_error (proto_chain p))
  end.

(** [e instanceof F] for a function [F] whose [prototype] property is [P]:
    [false] when [e] is not an Object, a TypeError when [P] is not an
    Object, and otherwise the walk along the chain of [e]. *)
Definition instanceof {S : Type} (e : value) (P : option prototype) : M S bool :=
  match chain_of e with
  | None => ret false
  | Some chain =>
      match P with
      | None => throw (construct TypeError_prototype "Function has non-object prototype in instanceof check")
      | Some p => ret (existsb (Nat.eqb (proto_self p)) chain)
      end
  end.

(* ================================================================== *)
(** ** [exception.ts] *)

Module Exception.

(** [Result<T, E>] *)
Inductive Result : Type :=
| Ok (value : value)
| Err (error : value).

Section WithWorld.

Context {W : Type}.

(** The machine state: the [TryChain] objects allocated so far, by
    address, and the state [W] of the surrounding program, which the
    callbacks read and write. *)
Record State : Type := mkState {
  heap : list Result;
  world : W
}.

Definition JS (A : Type) : Type := M State A.

(** What is passed where the library takes a predicate or a fallback: a
    function (with its [prototype] property and its behaviour when called
    with one argument), an array, or anything else. *)
#[warnings="-register-all"] Inductive argument : Type :=
| AFunction (prototype : option prototype) (call : value -> JS value)
| AArray (items : list argument)
| AValue (v : value).

Definition truthy (a : argument) : bool :=
  match a with
  | AFunction _ _ | AArray _ => true
  | AValue v => ToBoolean v
  end.

(** [a(x)] *)
Definition apply (a : argument) (x : value) : JS value :=
  match a with
  | AFunction _ call => call x
  | _ => throw (construct TypeError_prototype "fallback is not a function")
  end.

(** The state once one more [TryChain] object holding [result] exists. *)
Definition allocate (s : State) (result : Result) : State :=
  {| heap := heap s ++ [result]; world := world s |}.

(** The object at address [chain] holds [result]. *)
Definition holds (s : State) (chain : nat) (result : Result) : Prop :=
  nth_error (heap s) chain = Some result.

(** [new TryChain(result)]: the new object takes the next free address. *)
Definition new_TryChain (result : Result) : JS nat :=
  fun s => (Normal (length (heap s)), allocate s result).

(** [this.result] *)
Definition get_result (this : nat) : JS Result :=
  fun s =>
    match nth_error (heap s) this with
    | Some r => (Normal r, s)
    | None => (Thrown (construct TypeError_prototype "Cannot read properties of undefined"), s)
    end.

(** [Throw(e)] *)
Definition Throw {A : Type} (e : value) : JS A := throw e.

(** [Try(f)] *)
Definition Try (f : JS value) : JS nat :=
  fun s =>
    match f s with
    | (Thrown error, s') => new_TryChain (Err error) s'
    | (Normal value, s') => new_TryChain (Ok value) s'
    end.

(** [isErrorOf(e, pred)] *)
Fixpoint isErrorOf (e : value) (pred : argument) : JS value :=
  match pred with
  | AFunction P call =>
      isLikelyErrorConstructor <-
        (if prototype_instanceof P Error_prototype then ret true
         else
           parent <- getPrototypeOf P ;;
           ret (match parent with
                | Some i => negb (Nat.eqb i (proto_self Object_prototype))
                | None => true
                end)) ;;
      if isLikelyErrorConstructor : bool then
        b <- instanceof e P ;; ret (VBool b)
      else call e
  | AArray items =>
      (fix some (ps : list argument) : JS value :=
         match ps with
         | [] => ret (VBool false)
         | p :: ps' =>
             r <- isErrorOf e p ;;
             if ToBoolean r then ret (VBool true) else some ps'
         end) items
  | AValue _ => throw (construct Error_prototype "Invalid predicate")
  end.

(** [TryChain.prototype.map] *)
Definition map (this : nat) (f : value -> JS value) : JS nat :=
  result <- get_result this ;;
  match result with
  | Ok value => x <- f value ;; new_TryChain (Ok x)
  | Err error => new_TryChain (Err error)
  end.

(** [TryChain.prototype.case].  The field [result] is [readonly]: it is
    read once. *)
Definition case (this : nat) (pred : argument) (f : nat -> JS value) : JS nat :=
  result <- get_result this ;;
  match result with
  | Ok _ => ret this
  | Err error =>
      matched <- isErrorOf error pred ;;
      if ToBoolean matched then
        subchain <- new_TryChain (Err error) ;;
        result <- f subchain ;;
        new_TryChain (Ok result)
      else ret this
  end.

(** [TryChain.prototype.pick].  The field [result] is read once. *)
Definition pick (this : nat) (pred : argument) : JS nat :=
  result <- get_result this ;;
  match result with
  | Ok value => new_TryChain (Ok value)
  | Err error =>
      matched <- isErrorOf error pred ;;
      if ToBoolean matched then new_TryChain (Err error)
      else throw error
  end.

(** [TryChain.prototype.tap] *)
Definition tap (this : nat) (f : value -> JS value) : JS nat :=
  result <- get_result this ;;
  match result with
  | Err error => _ <- f error ;; ret this
  | Ok _ => ret this
  end.

(** [TryChain.prototype.done]: [None] is the call without an argument, in
    which the parameter [fallback] is [undefined]. *)
Definition done (this : nat) (arg : option argument) : JS value :=
  let fallback := match arg with Some a => a | None => AValue VUndefined end in
  result <- get_result this ;;
  match result with
  | Ok value => ret value
  | Err error =>
      if truthy fallback then apply fallback error
      else throw error
  end.

(** A computation of the surrounding program that overwrites no
    [TryChain] object (the field [result] is [readonly]); it may make new
    ones. *)
Definition keeps_chains {A : Type} (m : JS A) : Prop :=
  forall s chain result, holds s chain result -> holds (snd (m s)) chain result.

(** A predicate whose functions overwrite no [TryChain] object. *)
Fixpoint keeps_chains_pred (pred : argument) : Prop :=
  match pred with
  | AFunction _ call => forall e, keeps_chains (call e)
  | AArray items =>
      (fix all (ps : list argument) : Prop :=
         match ps with
         | [] => True
         | p :: ps' => keeps_chains_pred p /\ all ps'
         end) items
  | AValue _ => True
  end.

End WithWorld.

Arguments State W : clear implicits.
Arguments JS W A : clear implicits.
Arguments argument W : clear implicits.

(** *** Predicates and errors of the documentation and of the test-suite *)

(** The [name] that an object inherits from the nearest built-in error
    prototype of its chain, if there is one. *)
Fixpoint error_name (chain : list proto_id) : option string :=
  match chain with
  | [] => None
  | i :: rest =>
      if Nat.eqb i (proto_self TypeError_prototype) then Some "TypeError"%string
      else if Nat.eqb i (proto_self SyntaxError_prototype) then Some "SyntaxError"%string
      else if Nat.eqb i (proto_self Error_prototype) then Some "Error"%string
      else error_name rest
  end.

(** ToString.  An error object is rendered by [Error.prototype.toString],
    from its name and its message; any other object by
    [Object.prototype.toString]. *)
Definition ToString (v : value) : string :=
  match v with
  | VUndefined => "undefined"
  | VNull => "null"
  | VBool true => "true"
  | VBool false => "false"
  | VNum n => NilZero.string_of_int (Z.to_int n)
  | VStr s => s
  | VObject chain message =>
      match error_name chain with
      | Some name =>
          if String.eqb message EmptyString then name
          else String.append name (String.append ": "%string message)
      | None => "[object Object]"
      end
  | VRef _ => "[object Object]"
  | VPromise _ _ _ => "[object Promise]"
  end.

(** The message of [Error(message)]: empty when [message] is [undefined]. *)
Definition message_of (message : value) : string :=
  match message with
  | VUndefined => EmptyString
  | _ => ToString message
  end.

(** The built-in [Error]: called as a function it makes an error as [new]
    does.  Its prototype object inherits from [Object.prototype]. *)
Definition Error_constructor {W : Type} : argument W :=
  AFunction (Some Error_prototype)
    (fun message => ret (construct Error_prototype (message_of message))).

(** The built-in [TypeError]. *)
Definition TypeError_constructor {W : Type} : argument W :=
  AFunction (Some TypeError_prototype)
    (fun message => ret (construct TypeError_prototype (message_of message))).

(** [class DemoError extends Error] of the test-suite: a class cannot be
    called without [new]. *)
Definition DemoError_prototype : prototype := Prototype 10 [1; 0].

Definition DemoError_constructor {W : Type} : argument W :=
  AFunction (Some DemoError_prototype)
    (fun _ => throw (construct TypeError_prototype
                       "Class constructor DemoError cannot be invoked without 'new'")).

(** An arrow function [(e) => ...]: it has no [prototype] property. *)
Definition arrow_function {W : Type} (call : value -> JS W value) : argument W :=
  AFunction None call.

(** A function expression [function (e) { ... }]: its [prototype] property
    is a fresh object that inherits from [Object.prototype]. *)
Definition function_expression {W : Type} (self : proto_id)
    (call : value -> JS W value) : argument W :=
  AFunction (Some (Prototype self [proto_self Object_prototype])) call.

(** [(e) => e instanceof TypeError], as in the documentation of
    [ErrorPredicate]. *)
Definition is_TypeError {W : Type} (e : value) : JS W value :=
  b <- instanceof e (Some TypeError_prototype) ;; ret (VBool b).

(** [new TypeError("bad")] and a state in which chain [0] holds it as an
    [Err] and chain [1] holds [Ok 1]. *)
Definition bad : value := construct TypeError_prototype "bad".

Definition start : State nat :=
  {| heap := [Err bad; Ok (VNum 1)]; world := 0 |}.

(** [() => 42] and [(e) => { count++; }]. *)
Definition forty_two : value -> JS nat value := fun _ => ret (VNum 42).

Definition count_up : value -> JS nat value :=
  fun _ s => (Normal VUndefined, {| heap := heap s; world := S (world s) |}).

End Exception.

(* ================================================================== *)
(** ** [do.ts] *)

(** The machine on which pipelines run. *)
Module Machine.

Section WithWorld.

Context {W : Type}.

(** The state [W] of the surrounding program, the microtask clock, and a
    ghost counter of how many step bodies have been invoked. *)
Record State : Type := mkState {
  world : W;
  now : nat;
  calls : nat
}.

Definition JS (A : Type) : Type := M State A.

(** A step body: a function of the accumulator that may read and write
    the program state and may throw.  It has no access to the clock. *)
Definition callback : Type := value -> W -> completion value * W.

(** [f(x)] *)
Definition invoke (f : callback) (x : value) : JS value :=
  fun s =>
    let (r, w) := f x (world s) in
    (r, {| world := w; now := now s; calls := S (calls s) |}).

(** [await v] inside an async function: the function is resumed one
    microtask tick after [v] is settled, and not before the next tick. *)
Definition await (v : value) : JS value :=
  fun s =>
    match v with
    | VPromise settle_at fulfilled payload =>
        let s' := {| world := world s;
                     now := S (Nat.max (now s) settle_at);
                     calls := calls s |} in
        if fulfilled then (Normal payload, s') else (Thrown payload, s')
    | _ => (Normal v, {| world := world s; now := S (now s); calls := calls s |})
    end.

(** [(async () => body)()]: the caller gets a promise at once and goes on
    at the tick of the call; the promise is settled at the tick at which
    the body ends.  The effects of the body on the program state are
    recorded in the order in which they happen, and all at once: the state
    given back with the promise is the state once the promise is settled,
    so that it already holds the effects of the part of the body that runs
    after its first [await].  What is exact is the promise, and the state
    after an [await] of it. *)
Definition async_function (body : JS value) : JS value :=
  fun s =>
    let (r, s') := body s in
    (Normal
       match r with
       | Normal (VPromise settle_at fulfilled payload) =>
           VPromise (Nat.max (now s' + 2) (S settle_at)) fulfilled payload
       | Normal v => VPromise (now s') true v
       | Thrown e => VPromise (now s') false e
       end,
     {| world := world s'; now := now s; calls := calls s' |}).

(** [type SyncStep] and [type AsyncStep]: the flag of a [SyncStep] is the
    literal [false], so a [SyncStep] is its function. *)
Definition SyncStep : Type := callback.
Definition AsyncStep : Type := (bool * callback)%type.

Definition asAsyncStep (f : SyncStep) : AsyncStep := (false, f).

End WithWorld.

Arguments State W : clear implicits.
Arguments JS W A : clear implicits.
Arguments callback W : clear implicits.
Arguments SyncStep W : clear implicits.
Arguments AsyncStep W : clear implicits.

End Machine.

Import Machine.

(** [class AsyncThunk] *)
Module AsyncThunk.

Section WithWorld.

Context {W : Type}.

Record AsyncThunk : Type := new { _steps : list (AsyncStep W) }.

(** [for (const [, f] of this._steps) current = f(current);] *)
Fixpoint run_steps (steps : list (AsyncStep W)) (current : value) : JS W value :=
  match steps with
  | [] => ret current
  | (_, f) :: rest => x <- invoke f current ;; run_steps rest x
  end.

(** [for (const [isAsync, f] of this._steps)
       current = isAsync ? await f(current) : f(current);] *)
Fixpoint run_steps_await (steps : list (AsyncStep W)) (current : value) : JS W value :=
  match steps with
  | [] => ret current
  | (isAsync, f) :: rest =>
      x <- (if isAsync then (p <- invoke f current ;; await p)
            else invoke f current) ;;
      run_steps_await rest x
  end.

Definition isSimplePipeline (steps : list (AsyncStep W)) : bool :=
  (1 <=? length steps)
  && match nth_error steps (length steps - 1) with
     | Some (isAsync, _) => isAsync
     | None => false
     end
  && forallb (fun step : AsyncStep W => negb (fst step))
             (firstn (length steps - 1) steps).

Definition usage_error : value :=
  construct Error_prototype
    "AsyncThunk: pipe callback returned a promise; try pipeAwait instead".

(** [AsyncThunk.prototype.done] *)
Definition done (this : AsyncThunk) : JS W value :=
  if isSimplePipeline (_steps this) then
    run_steps (_steps this) VUndefined
  else
    async_function
      (current <- run_steps_await (_steps this) VUndefined ;;
       if is_thenable current then throw usage_error
       else ret current).

(** [AsyncThunk.prototype.pipe] *)
Definition pipe (this : AsyncThunk) (f : callback W) : JS W AsyncThunk :=
  ret (new (_steps this ++ [(false, f)])).

(** [AsyncThunk.prototype.pipeAwait] *)
Definition pipeAwait (this : AsyncThunk) (f : callback W) : JS W AsyncThunk :=
  ret (new (_steps this ++ [(true, f)])).

(** [AsyncThunk.prototype.rcall]: [f] takes its receiver and then its
    arguments. *)
Definition rcall (this : AsyncThunk) (f : value -> list value -> W -> completion value * W)
    (args : list value) : JS W AsyncThunk :=
  pipe this (fun value => f value args).

(** [AsyncThunk.prototype.rcallAwait] *)
Definition rcallAwait (this : AsyncThunk) (f : value -> list value -> W -> completion value * W)
    (args : list value) : JS W AsyncThunk :=
  pipeAwait this (fun value => f value args).

(** [AsyncThunk.prototype.tap] *)
Definition tap (this : AsyncThunk) (f : callback W) : JS W AsyncThunk :=
  pipe this (fun value w =>
    match f value w with
    | (Normal _, w') => (Normal value, w')
    | (Thrown e, w') => (Thrown e, w')
    end).

End WithWorld.

Arguments AsyncThunk W : clear implicits.

End AsyncThunk.

(** [class Thunk] *)
Module Thunk.

Section WithWorld.

Context {W : Type}.

Record Thunk : Type := new { _steps : list (SyncStep W) }.

(** [for (const [, f] of this._steps) current = f(current);] *)
Fixpoint run_steps (steps : list (SyncStep W)) (current : value) : JS W value :=
  match steps with
  | [] => ret current
  | f :: rest => x <- invoke f current ;; run_steps rest x
  end.

(** [Thunk.prototype.done] *)
Definition done (this : Thunk) : JS W value :=
  run_steps (_steps this) VUndefined.

(** [Thunk.prototype.pipe] *)
Definition pipe (this : Thunk) (f : callback W) : JS W Thunk :=
  ret (new (_steps this ++ [f])).

(** [Thunk.prototype.pipeAwait] *)
Definition pipeAwait (this : Thunk) (f : callback W) : JS W (AsyncThunk.AsyncThunk W) :=
  ret (AsyncThunk.new (List.map asAsyncStep (_steps this) ++ [(true, f)])).

(** [Thunk.prototype.rcall] *)
Definition rcall (this : Thunk) (f : value -> list value -> W -> completion value * W)
    (args : list value) : JS W Thunk :=
  pipe this (fun value => f value args).

(** [Thunk.prototype.rcallAwait] *)
Definition rcallAwait (this : Thunk) (f : value -> list value -> W -> completion value * W)
    (args : list value) : JS W (AsyncThunk.AsyncThunk W) :=
  pipeAwait this (fun value => f value args).

(** [Thunk.prototype.tap] *)
Definition tap (this : Thunk) (f : callback W) : JS W Thunk :=
  pipe this (fun value w =>
    match f value w with
    | (Normal _, w') => (Normal value, w')
    | (Thrown e, w') => (Thrown e, w')
    end).

End WithWorld.

Arguments Thunk W : clear implicits.

End Thunk.

(** [Do(value)]: the seed step is [() => value]. *)
Definition Do {W : Type} (value : value) : JS W (Thunk.Thunk W) :=
  let seed : SyncStep W := fun _ w => (Normal value, w) in
  ret (Thunk.new [seed]).

(* ================================================================== *)
(** ** Programs that use [do.ts] *)

Module Client.

Section WithWorld.

Context {W : Type}.

(** What a chained expression denotes so far. *)
Inductive chain : Type :=
| IsThunk (t : Thunk.Thunk W)
| IsAsyncThunk (a : AsyncThunk.AsyncThunk W).

(** One more method call on the chain. *)
Inductive method_call : Type :=
| Call_pipe (f : callback W)
| Call_pipeAwait (f : callback W)
| Call_rcall (f : value -> list value -> W -> completion value * W) (args : list value)
| Call_rcallAwait (f : value -> list value -> W -> completion value * W) (args : list value)
| Call_tap (f : callback W).

Definition call_method (c : chain) (m : method_call) : JS W chain :=
  match c, m with
  | IsThunk t, Call_pipe f => t' <- Thunk.pipe t f ;; ret (IsThunk t')
  | IsThunk t, Call_pipeAwait f => a <- Thunk.pipeAwait t f ;; ret (IsAsyncThunk a)
  | IsThunk t, Call_rcall f args => t' <- Thunk.rcall t f args ;; ret (IsThunk t')
  | IsThunk t, Call_rcallAwait f args => a <- Thunk.rcallAwait t f args ;; ret (IsAsyncThunk a)
  | IsThunk t, Call_tap f => t' <- Thunk.tap t f ;; ret (IsThunk t')
  | IsAsyncThunk a, Call_pipe f => a' <- AsyncThunk.pipe a f ;; ret (IsAsyncThunk a')
  | IsAsyncThunk a, Call_pipeAwait f => a' <- AsyncThunk.pipeAwait a f ;; ret (IsAsyncThunk a')
  | IsAsyncThunk a, Call_rcall f args => a' <- AsyncThunk.rcall a f args ;; ret (IsAsyncThunk a')
  | IsAsyncThunk a, Call_rcallAwait f args => a' <- AsyncThunk.rcallAwait a f args ;; ret (IsAsyncThunk a')
  | IsAsyncThunk a, Call_tap f => a' <- AsyncThunk.tap a f ;; ret (IsAsyncThunk a')
  end.

Fixpoint call_methods (c : chain) (ms : list method_call) : JS W chain :=
  match ms with
  | [] => ret c
  | m :: ms' => c' <- call_method c m ;; call_methods c' ms'
  end.

(** [Do(value).m1(...).m2(...)...] without the final [done()]. *)
Definition build (value : value) (ms : list method_call) : JS W chain :=
  t <- Do value ;; call_methods (IsThunk t) ms.

(** The final [.done()], awaited when the chain is an [AsyncThunk]:
    [Do(...)....done()] or [await Do(...)....done()]. *)
Definition run_to_completion (c : chain) : JS W value :=
  match c with
  | IsThunk t => Thunk.done t
  | IsAsyncThunk a => p <- AsyncThunk.done a ;; await p
  end.

(** The number of microtask ticks a computation takes: what the counter of
    the test-suite, which advances once per tick, shows after it. *)
Definition suspensions {A : Type} (m : JS W A) (s : State W) : nat :=
  now (snd (m s)) - now s.

(** Whether a method call appends an asynchronous step, and the step. *)
Definition is_await (m : method_call) : bool :=
  match m with
  | Call_pipeAwait _ | Call_rcallAwait _ _ => true
  | _ => false
  end.

Definition body_of (m : method_call) : callback W :=
  match m with
  | Call_pipe f | Call_pipeAwait f => f
  | Call_rcall f args | Call_rcallAwait f args => fun value => f value args
  | Call_tap f =>
      fun value w =>
        match f value w with
        | (Normal _, w') => (Normal value, w')
        | (Thrown e, w') => (Thrown e, w')
        end
  end.

Definition step_of (m : method_call) : AsyncStep W := (is_await m, body_of m).

Definition steps_of (c : chain) : list (AsyncStep W) :=
  match c with
  | IsThunk t => List.map asAsyncStep (Thunk._steps t)
  | IsAsyncThunk a => AsyncThunk._steps a
  end.

Definition seed (value : value) : SyncStep W := fun _ w => (Normal value, w).

(** [pipe] or [pipeAwait]. *)
Definition pipe_or_pipeAwait (isAsync : bool) (f : callback W) : method_call :=
  if isAsync then Call_pipeAwait f else Call_pipe f.

(** A run of [steps] from [current] goes as in the suspension-count
    scenarios: every step returns normally, and every asynchronous step
    returns a promise that is already fulfilled. *)
Fixpoint prompt_run (steps : list (AsyncStep W)) (current : value) (w : W) : Prop :=
  match steps with
  | [] => True
  | (isAsync, f) :: rest =>
      exists v w',
        f current w = (Normal (if isAsync then Promise_resolve v else v), w')
        /\ prompt_run rest v w'
  end.

Definition is_AsyncThunk (c : chain) : bool :=
  match c with
  | IsThunk _ => false
  | IsAsyncThunk _ => true
  end.

(** The number of asynchronous steps, and whether one of them comes before
    the last step. *)
Definition count_async (steps : list (AsyncStep W)) : nat :=
  length (filter (fun step : AsyncStep W => fst step) steps).

Definition async_before_last (steps : list (AsyncStep W)) : bool :=
  existsb (fun step : AsyncStep W => fst step) (removelast steps).

(** Whether, while [done()] runs [steps] ([awaiting] the asynchronous ones
    or not), some step appended as synchronous returns a thenable. *)
Fixpoint sync_step_returns_thenable (awaiting : bool) (steps : list (AsyncStep W))
    (current : value) (s : State W) : bool :=
  match steps with
  | [] => false
  | (isAsync, f) :: rest =>
      match invoke f current s with
      | (Normal x, s1) =>
          (negb isAsync && is_thenable x)
          || match (if isAsync && awaiting then await x s1 else (Normal x, s1)) with
             | (Normal y, s2) => sync_step_returns_thenable awaiting rest y s2
             | (Thrown _, _) => false
             end
      | (Thrown _, _) => false
      end
  end.

Definition misused (a : AsyncThunk.AsyncThunk W) (s : State W) : bool :=
  sync_step_returns_thenable
    (negb (AsyncThunk.isSimplePipeline (AsyncThunk._steps a)))
    (AsyncThunk._steps a) VUndefined s.

(** [done()] fails with the usage error. *)
Definition fails_with_usage_error (a : AsyncThunk.AsyncThunk W) (s : State W) : Prop :=
  exists tick s',
    AsyncThunk.done a s = (Normal (VPromise tick false AsyncThunk.usage_error), s').

End WithWorld.

Arguments chain W : clear implicits.
Arguments method_call W : clear implicits.

(** The table of the suspension-count scenarios for three steps, each
    synchronous ([false]) or asynchronous ([true]). *)
Definition enumerated_count (k1 k2 k3 : bool) : nat :=
  match k1, k2, k3 with
  | false, false, false => 0
  | false, false, true => 1
  | false, true, false => 2
  | false, true, true => 3
  | true, false, false => 2
  | true, false, true => 3
  | true, true, false => 3
  | true, true, true => 4
  end.

(** Step bodies of the test-suite and of the documentation, over a program
    state that counts something.  They are meant for numbers: what
    JavaScript makes of [+] and [*] on other operands is not modelled, and
    the bodies throw there. *)
Definition add (k : Z) : callback nat :=
  fun it w =>
    match it with
    | VNum n => (Normal (VNum (n + k)), w)
    | _ => (Thrown (construct TypeError_prototype "not a number"), w)
    end.

Definition mul (k : Z) : callback nat :=
  fun it w =>
    match it with
    | VNum n => (Normal (VNum (n * k)), w)
    | _ => (Thrown (construct TypeError_prototype "not a number"), w)
    end.

(** [(it) => Promise.resolve(it + k)] and [(it) => Promise.resolve(it * k)] *)
Definition add_resolved (k : Z) : callback nat :=
  fun it w =>
    match it with
    | VNum n => (Normal (Promise_resolve (VNum (n + k))), w)
    | _ => (Thrown (construct TypeError_prototype "not a number"), w)
    end.

Definition mul_resolved (k : Z) : callback nat :=
  fun it w =>
    match it with
    | VNum n => (Normal (Promise_resolve (VNum (n * k))), w)
    | _ => (Thrown (construct TypeError_prototype "not a number"), w)
    end.

(** [(it) => { called = true; return it; }], the flag being the count. *)
Definition mark_called : callback nat := fun it w => (Normal it, S w).

(** [() => 7] *)
Definition constantly (v : value) : callback nat := fun _ w => (Normal v, w).

Definition initial : State nat := {| world := 0; now := 0; calls := 0 |}.

(** [Do(42).pipeAwait((it) => Promise.resolve(it + 1))
          .pipe((it) => Promise.resolve(it * 2))], as in the test
    [Fails on unprecedented Promise collapse]. *)
Definition collapse_calls : list (method_call nat) :=
  [Call_pipeAwait (add_resolved 1); Call_pipe (mul_resolved 2)].

(** The same with one more [.pipe(() => 7)]. *)
Definition interior_promise_calls : list (method_call nat) :=
  [Call_pipeAwait (add_resolved 1); Call_pipe (mul_resolved 2);
   Call_pipe (constantly (VNum 7))].

Definition interior_promise_chain : AsyncThunk.AsyncThunk nat :=
  AsyncThunk.new
    [(false, seed (VNum 42)); (true, add_resolved 1); (false, mul_resolved 2);
     (false, constantly (VNum 7))].

End Client.

(* ================================================================== *)
(** ** More of [exception.ts]: [ThrowMe], [TryAsync], runs of predicates *)

Module ExceptionAsync.

Section WithWorld.

Context {W : Type}.

(** [ThrowMe.call(e)] *)
Definition ThrowMe {A : Type} (this : value) : Exception.JS W A := throw this.

(** The state of the surrounding program together with the microtask
    clock. *)
Record Timed : Type := mkTimed {
  program : W;
  tick : nat
}.

Definition JS (A : Type) : Type := Exception.JS Timed A.

Definition at_tick (s : Exception.State Timed) (n : nat) : Exception.State Timed :=
  {| Exception.heap := Exception.heap s;
     Exception.world := {| program := program (Exception.world s); tick := n |} |}.

(** [await v] inside an async function, as on the machine of the
    pipelines. *)
Definition await (v : value) : JS value :=
  fun s =>
    match v with
    | VPromise settle_at fulfilled payload =>
        let s' := at_tick s (S (Nat.max (tick (Exception.world s)) settle_at)) in
        if fulfilled then (Normal payload, s') else (Thrown payload, s')
    | _ => (Normal v, at_tick s (S (tick (Exception.world s))))
    end.

(** [TryAsync(f)]: an async function.  Its promise is settled when the body
    ends; the body ends by returning a [TryChain], which is no thenable.
    As for the pipelines, the state given back with the promise is the
    state once the promise is settled: the chain is already in it. *)
Definition TryAsync (f : JS value) : JS value :=
  fun s =>
    match (p <- f ;; await p) s with
    | (Thrown error, s1) =>
        (Normal (VPromise (tick (Exception.world s1)) true (VRef (length (Exception.heap s1)))),
         at_tick (Exception.allocate s1 (Exception.Err error)) (tick (Exception.world s)))
    | (Normal value, s1) =>
        (Normal (VPromise (tick (Exception.world s1)) true (VRef (length (Exception.heap s1)))),
         at_tick (Exception.allocate s1 (Exception.Ok value)) (tick (Exception.world s)))
    end.

End WithWorld.

Arguments Timed W : clear implicits.
Arguments JS W A : clear implicits.

Section Predicates.

Context {W : Type}.

(** Every predicate of [ps], evaluated in order from the state [s],
    answers, and answers falsy; [s'] is the state after the last. *)
Fixpoint all_decline (e : value) (ps : list (Exception.argument W))
    (s s' : Exception.State W) : Prop :=
  match ps with
  | [] => s = s'
  | p :: rest =>
      exists r s1,
        Exception.isErrorOf e p s = (Normal r, s1)
        /\ ToBoolean r = false
        /\ all_decline e rest s1 s'
  end.

(** [e instanceof C] for a constructor [C] with prototype object [p]. *)
Definition is_instance (e : value) (p : prototype) : bool :=
  match chain_of e with
  | Some chain => existsb (Nat.eqb (proto_self p)) chain
  | None => false
  end.

End Predicates.

(** An instance of a class that extends [DemoError], and a state without
    chains at tick [0]. *)
Definition sub_demo : value := VObject [11; 10; 1; 0] "sub".

Definition initial : Exception.State (Timed nat) :=
  {| Exception.heap := []; Exception.world := {| program := 0; tick := 0 |} |}.

End ExceptionAsync.

(* ================================================================== *)
(** ** [tap.ts] *)

Module Tap.

Section WithWorld.

Context {W : Type}.

(** [tap(obj, f)] *)
Definition tap (obj : value) (f : callback W) : Machine.JS W value :=
  _ <- invoke f obj ;; ret obj.

(** [tapMe.call(this, f)] *)
Definition tapMe (this : value) (f : callback W) : Machine.JS W value :=
  _ <- invoke f this ;; ret this.

(** [tapAsync(obj, f)] *)
Definition tapAsync (obj : value) (f : callback W) : Machine.JS W value :=
  async_function (p <- invoke f obj ;; _ <- Machine.await p ;; ret obj).

(** [tapMeAsync.call(this, f)] *)
Definition tapMeAsync (this : value) (f : callback W) : Machine.JS W value :=
  async_function (p <- invoke f this ;; _ <- Machine.await p ;; ret this).

End WithWorld.

End Tap.

(* ================================================================== *)
(** ** Runs of pipelines *)

Module Runs.

Section WithWorld.

Context {W : Type}.

(** A run of [steps] from [current] in which every step returns normally
    and every asynchronous step returns a promise that is already
    fulfilled, ending with the value [final] in the program state
    [w_final]. *)
Fixpoint prompt_run_to (steps : list (AsyncStep W)) (current : value) (w : W)
    (final : value) (w_final : W) : Prop :=
  match steps with
  | [] => current = final /\ w = w_final
  | (isAsync, f) :: rest =>
      exists v w',
        f current w = (Normal (if isAsync then Promise_resolve v else v), w')
        /\ prompt_run_to rest v w' final w_final
  end.

End WithWorld.

(** [function double(this: number) { return this * 2; }] of the
    documentation, and a step that throws. *)
Definition double : value -> list value -> nat -> completion value * nat :=
  fun this _ w =>
    match this with
    | VNum n => (Normal (VNum (n * 2)), w)
    | _ => (Thrown (construct TypeError_prototype "not a number"), w)
    end.

Definition fails : callback nat := fun _ w => (Thrown (VStr "boom"), w).

(** [(it) => Promise.reject("boom")] *)
Definition rejects : callback nat := fun _ w => (Normal (VPromise 0 false (VStr "boom")), w).

End Runs.

(* ================================================================== *)
(** ** Facts about the monad *)

Lemma bind_normal {S A B : Type} (m : M S A) (k : A -> M S B) (s s' : S) (a : A) :
  m s = (Normal a, s') -> bind m k s = k a s'.
Proof. unfold bind. intros ->. reflexivity. Qed.

Lemma bind_thrown {S A B : Type} (m : M S A) (k : A -> M S B) (s s' : S) (e : value) :
  m s = (Thrown e, s') -> bind m k s = (Thrown e, s').
Proof. unfold bind. intros ->. reflexivity. Qed.

Lemma bind_ret_l {S A B : Type} (a : A) (k : A -> M S B) (s : S) :
  bind (ret a) k s = k a s.
Proof. reflexivity. Qed.

Lemma bind_assoc {S A B C : Type} (m : M S A) (k : A -> M S B) (h : B -> M S C) (s : S) :
  bind (bind m k) h s = bind m (fun a => bind (k a) h) s.
Proof. unfold bind. destruct (m s) as [[a|e] s']; reflexivity. Qed.

(* ================================================================== *)
(** ** Pipelines: how the steps run *)

Section PipelineFacts.

Context {W : Type}.

Implicit Types (s : State W) (f : callback W) (steps : list (AsyncStep W)).

Lemma invoke_now f x s : now (snd (invoke f x s)) = now s.
Proof. unfold invoke. destruct (f x (world s)). reflexivity. Qed.

Lemma invoke_normal f x s v w' :
  f x (world s) = (Normal v, w') ->
  invoke f x s = (Normal v, {| world := w'; now := now s; calls := S (calls s) |}).
Proof. unfold invoke. intros ->. reflexivity. Qed.

Lemma async_function_eq (body : JS W value) s r s' :
  body s = (r, s') ->
  async_function body s
  = (Normal
       match r with
       | Normal (VPromise settle_at fulfilled payload) =>
           VPromise (Nat.max (now s' + 2) (S settle_at)) fulfilled payload
       | Normal v => VPromise (now s') true v
       | Thrown e => VPromise (now s') false e
       end,
     {| world := world s'; now := now s; calls := calls s' |}).
Proof. unfold async_function. intros ->. reflexivity. Qed.

(** Running the steps of a [Thunk] never moves the clock. *)
Lemma Thunk_run_steps_now (fs : list (SyncStep W)) : forall x s,
  now (snd (Thunk.run_steps fs x s)) = now s.
Proof.
  induction fs as [|f fs IH]; intros x s; simpl; [reflexivity|].
  unfold bind. pose proof (invoke_now f x s) as Hn.
  destruct (invoke f x s) as [[v|e] s1]; simpl in *.
  - rewrite IH. exact Hn.
  - exact Hn.
Qed.

(** The loop over [steps ++ [f]] is the loop over [steps] followed by [f]. *)
Lemma Thunk_run_steps_app (fs : list (SyncStep W)) f : forall x s,
  Thunk.run_steps (fs ++ [f]) x s = bind (Thunk.run_steps fs x) (invoke f) s.
Proof.
  induction fs as [|g fs IH]; intros x s; simpl.
  - unfold bind, ret. destruct (invoke f x s) as [[v|e] s1]; reflexivity.
  - rewrite bind_assoc.
    destruct (invoke g x s) as [[v|e] s1] eqn:Hg.
    + rewrite !(bind_normal _ _ _ Hg). apply IH.
    + rewrite !(bind_thrown _ _ _ Hg). reflexivity.
Qed.

(** The synchronous loop of [AsyncThunk.done] on the steps of a [Thunk] is
    the loop of [Thunk.done]. *)
Lemma run_steps_asAsyncStep (fs : list (SyncStep W)) : forall x s,
  AsyncThunk.run_steps (List.map asAsyncStep fs) x s = Thunk.run_steps fs x s.
Proof.
  induction fs as [|f fs IH]; intros x s; simpl; [reflexivity|].
  unfold bind. destruct (invoke f x s) as [[v|e] s1]; [apply IH|reflexivity].
Qed.

(** In a prompt run the awaiting loop ends normally, one tick later for
    each asynchronous step, every step having been invoked once. *)
Lemma run_steps_await_prompt steps : forall x s,
  Client.prompt_run steps x (world s) ->
  exists v s',
    AsyncThunk.run_steps_await steps x s = (Normal v, s')
    /\ now s' = now s + Client.count_async steps
    /\ calls s' = calls s + length steps.
Proof.
  induction steps as [|[isAsync f] steps IH]; intros x s Hrun; simpl in *.
  - exists x, s. unfold ret, Client.count_async. simpl. repeat split; lia.
  - destruct Hrun as (v & w' & Hf & Hrest).
    set (s1 := {| world := w'; now := (if isAsync then S (now s) else now s);
                  calls := S (calls s) |}).
    destruct (IH v s1 Hrest) as (v' & s' & Hrun' & Hnow & Hcalls).
    exists v', s'. unfold Client.count_async in *. simpl.
    split; [|destruct isAsync; simpl in *; lia].
    rewrite <- Hrun'. destruct isAsync.
    + erewrite bind_normal; [reflexivity|].
      erewrite bind_normal by (apply invoke_normal; exact Hf).
      unfold await, Promise_resolve. simpl. rewrite Nat.max_0_r. reflexivity.
    + erewrite bind_normal; [reflexivity|].
      apply invoke_normal. exact Hf.
Qed.

(** A list is empty or has a last element. *)
Lemma last_cases {A : Type} (l : list A) :
  l = [] \/ exists pre x, l = pre ++ [x].
Proof.
  induction l as [|x l _] using rev_ind; [left; reflexivity|].
  right. exists l, x. reflexivity.
Qed.

(** [isSimplePipeline] on a list with a last step: the last step is
    asynchronous and no step before it is. *)
Lemma isSimplePipeline_last (pre : list (AsyncStep W)) (k : bool) f :
  AsyncThunk.isSimplePipeline (pre ++ [(k, f)])
  = k && forallb (fun step : AsyncStep W => negb (fst step)) pre.
Proof.
  unfold AsyncThunk.isSimplePipeline.
  rewrite length_app. simpl length.
  replace (1 <=? length pre + 1) with true by (symmetry; apply Nat.leb_le; lia).
  replace (length pre + 1 - 1) with (length pre) by lia.
  rewrite nth_error_app2 by lia. rewrite Nat.sub_diag.
  rewrite firstn_app, Nat.sub_diag, firstn_all. simpl. rewrite app_nil_r.
  reflexivity.
Qed.

Lemma count_async_app steps1 steps2 :
  Client.count_async (steps1 ++ steps2)
  = Client.count_async steps1 + Client.count_async steps2.
Proof. unfold Client.count_async. rewrite filter_app, length_app. reflexivity. Qed.

Lemma all_synchronous steps :
  existsb (fun step : AsyncStep W => fst step) steps = false ->
  forallb (fun step : AsyncStep W => negb (fst step)) steps = true
  /\ Client.count_async steps = 0.
Proof.
  unfold Client.count_async.
  induction steps as [|[k f] steps IH]; simpl; [auto|].
  destruct k; simpl; [discriminate|]. exact IH.
Qed.

Lemma some_asynchronous steps :
  existsb (fun step : AsyncStep W => fst step) steps = true ->
  forallb (fun step : AsyncStep W => negb (fst step)) steps = false
  /\ 1 <= Client.count_async steps.
Proof.
  unfold Client.count_async.
  induction steps as [|[k f] steps IH]; simpl; [discriminate|].
  destruct k; simpl; [intros _; split; [reflexivity|lia]|]. exact IH.
Qed.

(** The strategy chosen by the code against the rule of the
    specification, for a chain with an asynchronous step. *)
Lemma strategy_count steps :
  1 <= Client.count_async steps ->
  (if AsyncThunk.isSimplePipeline steps then 1 else Client.count_async steps + 1)
  = Client.count_async steps + (if Client.async_before_last steps then 1 else 0).
Proof.
  intros Hone. destruct (last_cases steps) as [->|(pre & [k f] & ->)].
  - unfold Client.count_async in Hone. simpl in Hone. lia.
  - rewrite isSimplePipeline_last. unfold Client.async_before_last.
    rewrite removelast_last. rewrite count_async_app in *.
    destruct (existsb (fun step : AsyncStep W => fst step) pre) eqn:Hpre.
    + apply some_asynchronous in Hpre as [-> _]. rewrite andb_false_r. reflexivity.
    + apply all_synchronous in Hpre as [-> Hzero]. rewrite Hzero in *.
      unfold Client.count_async in *. destruct k; simpl in *; lia.
Qed.

(** The fast path in a prompt run: the promise of the last step is handed
    over as it is, and the clock has not moved. *)
Lemma run_steps_simple_prompt (pre : list (AsyncStep W)) f : forall x s,
  forallb (fun step : AsyncStep W => negb (fst step)) pre = true ->
  Client.prompt_run (pre ++ [(true, f)]) x (world s) ->
  exists v s',
    AsyncThunk.run_steps (pre ++ [(true, f)]) x s = (Normal (Promise_resolve v), s')
    /\ now s' = now s.
Proof.
  induction pre as [|[k g] pre IH]; intros x s Hsync Hrun; simpl in *.
  - destruct Hrun as (v & w' & Hf & _).
    exists v. eexists. erewrite bind_normal by (apply invoke_normal; exact Hf).
    unfold ret. split; reflexivity.
  - destruct k; simpl in Hsync; [discriminate|].
    destruct Hrun as (v & w' & Hg & Hrest).
    erewrite bind_normal by (apply invoke_normal; exact Hg).
    destruct (IH v {| world := w'; now := now s; calls := S (calls s) |} Hsync Hrest)
      as (v' & s' & Hrun' & Hnow).
    exists v', s'. split; [exact Hrun'|exact Hnow].
Qed.

(** [await this.done()] in a prompt run: one tick on the fast path, and one
    tick more than there are asynchronous steps otherwise. *)
Lemma done_suspensions (a : AsyncThunk.AsyncThunk W) s :
  Client.prompt_run (AsyncThunk._steps a) VUndefined (world s) ->
  Client.suspensions (p <- AsyncThunk.done a ;; Machine.await p) s
  = if AsyncThunk.isSimplePipeline (AsyncThunk._steps a) then 1
    else Client.count_async (AsyncThunk._steps a) + 1.
Proof.
  destruct a as [steps]. simpl. intros Hrun.
  unfold Client.suspensions, AsyncThunk.done. simpl.
  destruct (AsyncThunk.isSimplePipeline steps) eqn:Hsimple.
  - destruct (last_cases steps) as [->|(pre & [k f] & ->)]; [discriminate|].
    rewrite isSimplePipeline_last in Hsimple.
    apply andb_true_iff in Hsimple as [-> Hsync].
    destruct (run_steps_simple_prompt pre f VUndefined s Hsync Hrun)
      as (v & s' & Hdone & Hnow).
    rewrite (bind_normal _ _ _ Hdone). unfold Machine.await, Promise_resolve.
    cbn [snd now]. rewrite Hnow, Nat.max_0_r. lia.
  - destruct (run_steps_await_prompt steps VUndefined s Hrun)
      as (v & s' & Hloop & Hnow & _).
    destruct (is_thenable v) eqn:Hthen.
    + erewrite bind_normal
        by (apply async_function_eq; rewrite (bind_normal _ _ _ Hloop), Hthen;
            reflexivity).
      unfold Machine.await. cbn [snd now]. rewrite Hnow. lia.
    + erewrite bind_normal
        by (apply async_function_eq; rewrite (bind_normal _ _ _ Hloop), Hthen;
            reflexivity).
      destruct v; try discriminate Hthen;
        unfold Machine.await; cbn [snd now]; rewrite Hnow; lia.
Qed.

(** The awaiting loop over two lists of steps in a row. *)
Lemma run_steps_await_app steps1 steps2 : forall x s,
  AsyncThunk.run_steps_await (steps1 ++ steps2) x s
  = bind (AsyncThunk.run_steps_await steps1 x)
         (AsyncThunk.run_steps_await steps2) s.
Proof.
  induction steps1 as [|[k f] steps1 IH]; intros x s; simpl.
  - reflexivity.
  - rewrite bind_assoc.
    destruct ((if k then p <- invoke f x ;; Machine.await p else invoke f x) s)
      as [[v|e] s1] eqn:Hstep.
    + rewrite !(bind_normal _ _ _ Hstep). apply IH.
    + rewrite !(bind_thrown _ _ _ Hstep). reflexivity.
Qed.

Lemma existsb_step_of (ms : list (Client.method_call W)) :
  existsb (fun step : AsyncStep W => fst step) (List.map Client.step_of ms)
  = existsb Client.is_await ms.
Proof. induction ms as [|m ms IH]; simpl; [reflexivity|]. rewrite IH. reflexivity. Qed.

Lemma existsb_removelast {A : Type} (p : A -> bool) (l : list A) :
  existsb p l = false -> existsb p (removelast l) = false.
Proof.
  induction l as [|x l IH]; simpl; [auto|].
  intros H. apply orb_false_iff in H as [Hx Hl].
  destruct l; [reflexivity|]. simpl in *. rewrite Hx. simpl. exact (IH Hl).
Qed.

(** One method call leaves the machine as it is and appends one step. *)
Lemma call_method_spec (c : Client.chain W) (m : Client.method_call W) s :
  exists c',
    Client.call_method c m s = (Normal c', s)
    /\ Client.steps_of c' = Client.steps_of c ++ [Client.step_of m]
    /\ Client.is_AsyncThunk c' = Client.is_AsyncThunk c || Client.is_await m.
Proof.
  destruct c as [[fs]|[steps]], m; eexists; (split; [reflexivity|]);
    simpl; rewrite ?map_app; auto.
Qed.

Lemma call_methods_spec (ms : list (Client.method_call W)) : forall c s,
  exists c',
    Client.call_methods c ms s = (Normal c', s)
    /\ Client.steps_of c' = Client.steps_of c ++ List.map Client.step_of ms
    /\ Client.is_AsyncThunk c'
       = Client.is_AsyncThunk c || existsb Client.is_await ms.
Proof.
  induction ms as [|m ms IH]; intros c s; simpl.
  - exists c. rewrite app_nil_r, orb_false_r. auto.
  - destruct (call_method_spec c m s) as (c1 & Hcall & Hsteps & Hkind).
    destruct (IH c1 s) as (c' & Hcalls & Hsteps' & Hkind').
    exists c'. rewrite (bind_normal _ _ _ Hcall), Hcalls, Hsteps', Hkind', Hsteps, Hkind.
    rewrite <- app_assoc, orb_assoc. auto.
Qed.

(** Building a chain leaves the machine as it is; the chain holds the seed
    step and then one step for each method call, in the order of the
    calls. *)
Lemma build_spec v (ms : list (Client.method_call W)) s :
  exists c,
    Client.build v ms s = (Normal c, s)
    /\ Client.steps_of c = (false, Client.seed v) :: List.map Client.step_of ms
    /\ Client.is_AsyncThunk c = existsb Client.is_await ms.
Proof.
  unfold Client.build, Do. rewrite bind_ret_l.
  destruct (call_methods_spec ms (Client.IsThunk (Thunk.new [Client.seed v])) s)
    as (c & Hcalls & Hsteps & Hkind).
  exists c. auto.
Qed.

End PipelineFacts.

(* ================================================================== *)
(** ** Pipelines: suspension counts *)

Section SuspensionCounts.

Context {W : Type}.

(** [Do(v).m1(...)....done()], awaited when asynchronous, in a prompt run:
    one tick for each asynchronous step, and one more when an asynchronous
    step comes before the last step. *)
Lemma build_suspensions v (ms : list (Client.method_call W)) (s : State W) :
  Client.prompt_run (List.map Client.step_of ms) v (world s) ->
  Client.suspensions (c <- Client.build v ms ;; Client.run_to_completion c) s
  = Client.count_async (List.map Client.step_of ms)
    + (if Client.async_before_last (List.map Client.step_of ms) then 1 else 0).
Proof.
  intros Hrun.
  destruct (build_spec v ms s) as (c & Hbuild & Hsteps & Hkind).
  unfold Client.suspensions. rewrite (bind_normal _ _ _ Hbuild).
  pose proof (existsb_step_of ms) as Hmap.
  destruct c as [t|a]; simpl in Hkind, Hsteps |- *.
  - (* no asynchronous step: a Thunk *)
    rewrite <- Hkind in Hmap.
    unfold Client.async_before_last.
    rewrite (existsb_removelast _ _ Hmap).
    apply all_synchronous in Hmap as [_ ->].
    unfold Thunk.done. rewrite Thunk_run_steps_now. lia.
  - (* an AsyncThunk *)
    rewrite <- Hkind in Hmap.
    assert (Hprompt : Client.prompt_run (AsyncThunk._steps a) VUndefined (world s)).
    { rewrite Hsteps. simpl. exists v, (world s). split; [reflexivity|exact Hrun]. }
    pose proof (done_suspensions a s Hprompt) as Hdone.
    unfold Client.suspensions in Hdone. rewrite Hdone, Hsteps.
    assert (Hcount : Client.count_async
                       ((false, Client.seed v) :: List.map Client.step_of ms)
                     = Client.count_async (List.map Client.step_of ms))
      by reflexivity.
    rewrite strategy_count
      by (rewrite Hcount; apply some_asynchronous in Hmap as [_ H]; exact H).
    rewrite Hcount. f_equal.
    unfold Client.async_before_last.
    destruct (List.map Client.step_of ms) eqn:Hms; [discriminate Hmap|].
    reflexivity.
Qed.

End SuspensionCounts.

(** C1.  [done()] takes exactly the enumerated numbers of suspensions, in
    runs where every step returns normally and every asynchronous step
    returns a promise that is already fulfilled (as [Promise.resolve(...)]
    in the scenarios): for a chain of any length, one suspension for each
    asynchronous step, plus one when an asynchronous step comes before the
    last step; hence none for an all-synchronous pipeline of any length,
    one when the only asynchronous step is the last, and for three steps
    the table sync-sync-async 1, sync-async-sync 2, sync-async-async 3,
    async-sync-sync 2, async-sync-async 3, async-async-sync 3,
    async-async-async 4. *)
Theorem done_suspension_counts (W : Type) :
  (forall v (ms : list (Client.method_call W)) (s : State W),
      Client.prompt_run (List.map Client.step_of ms) v (world s) ->
      Client.suspensions (c <- Client.build v ms ;; Client.run_to_completion c) s
      = Client.count_async (List.map Client.step_of ms)
        + (if Client.async_before_last (List.map Client.step_of ms) then 1 else 0))
  /\ (forall v (ms : list (Client.method_call W)) (s : State W),
      existsb Client.is_await ms = false ->
      Client.prompt_run (List.map Client.step_of ms) v (world s) ->
      Client.suspensions (c <- Client.build v ms ;; Client.run_to_completion c) s = 0)
  /\ (forall v (ms : list (Client.method_call W)) (m : Client.method_call W) (s : State W),
      existsb Client.is_await ms = false ->
      Client.is_await m = true ->
      Client.prompt_run (List.map Client.step_of (ms ++ [m])) v (world s) ->
      Client.suspensions
        (c <- Client.build v (ms ++ [m]) ;; Client.run_to_completion c) s = 1)
  /\ (forall (k1 k2 k3 : bool) v (f1 f2 f3 : callback W) (s : State W),
      Client.prompt_run [(k1, f1); (k2, f2); (k3, f3)] v (world s) ->
      Client.suspensions
        (c <- Client.build v [Client.pipe_or_pipeAwait k1 f1;
                              Client.pipe_or_pipeAwait k2 f2;
                              Client.pipe_or_pipeAwait k3 f3] ;;
         Client.run_to_completion c) s
      = Client.enumerated_count k1 k2 k3).
Proof.
  split; [|split; [|split]].
  - intros v ms s. apply build_suspensions.
  - intros v ms s Hsync Hrun. rewrite build_suspensions by exact Hrun.
    rewrite <- existsb_step_of in Hsync. unfold Client.async_before_last.
    rewrite (existsb_removelast _ _ Hsync).
    apply all_synchronous in Hsync as [_ ->]. reflexivity.
  - intros v ms m s Hsync Hm Hrun. rewrite build_suspensions by exact Hrun.
    rewrite <- existsb_step_of in Hsync. unfold Client.async_before_last.
    rewrite map_app. simpl List.map. rewrite removelast_last, Hsync, count_async_app.
    apply all_synchronous in Hsync as [_ ->].
    unfold Client.count_async, Client.step_of. simpl. rewrite Hm. reflexivity.
  - intros k1 k2 k3 v f1 f2 f3 s Hrun.
    rewrite build_suspensions.
    + destruct k1, k2, k3; reflexivity.
    + destruct k1, k2, k3; exact Hrun.
Qed.

(** Scenarios of the test-suite, from [Do(0)] with steps [it + 1] and
    [Promise.resolve(it + 1)]: the rule on [async-sync-async], a pipeline
    of four synchronous steps, [sync-sync-async] as a chain whose last
    step alone is asynchronous, and the row [async-async-sync] of the
    table. *)
Lemma done_suspension_counts_witness :
  Client.suspensions
    (c <- Client.build (VNum 0)
            [Client.Call_pipeAwait (Client.add_resolved 1);
             Client.Call_pipe (Client.add 1);
             Client.Call_pipeAwait (Client.add_resolved 1)] ;;
     Client.run_to_completion c) Client.initial = 3
  /\ Client.suspensions
       (c <- Client.build (VNum 0)
               [Client.Call_pipe (Client.add 1); Client.Call_pipe (Client.add 1);
                Client.Call_pipe (Client.add 1); Client.Call_pipe (Client.add 1)] ;;
        Client.run_to_completion c) Client.initial = 0
  /\ Client.suspensions
       (c <- Client.build (VNum 0)
               ([Client.Call_pipe (Client.add 1); Client.Call_pipe (Client.add 1)]
                ++ [Client.Call_pipeAwait (Client.add_resolved 1)]) ;;
        Client.run_to_completion c) Client.initial = 1
  /\ Client.suspensions
       (c <- Client.build (VNum 0)
               [Client.pipe_or_pipeAwait true (Client.add_resolved 1);
                Client.pipe_or_pipeAwait true (Client.add_resolved 1);
                Client.pipe_or_pipeAwait false (Client.add 1)] ;;
        Client.run_to_completion c) Client.initial
     = Client.enumerated_count true true false.
Proof.
  destruct (done_suspension_counts nat) as (Hrule & Hsync & Hlast & Htable).
  split; [|split; [|split]].
  - apply (Hrule (VNum 0)
             [Client.Call_pipeAwait (Client.add_resolved 1);
              Client.Call_pipe (Client.add 1);
              Client.Call_pipeAwait (Client.add_resolved 1)] Client.initial).
    simpl. repeat (eexists; eexists; split; [reflexivity|]). exact I.
  - apply Hsync; [reflexivity|].
    simpl. repeat (eexists; eexists; split; [reflexivity|]). exact I.
  - apply Hlast; [reflexivity|reflexivity|].
    simpl. repeat (eexists; eexists; split; [reflexivity|]). exact I.
  - apply Htable.
    simpl. repeat (eexists; eexists; split; [reflexivity|]). exact I.
Defined.

(** The scenarios of the test-suite, evaluated: result and tick count of
    [await Do(0)....done()] for the seven asynchronous cases. *)
Example await_count_cases :
  List.map
    (fun ks : bool * bool * bool =>
       let '(k1, k2, k3) := ks in
       let step (k : bool) :=
         Client.pipe_or_pipeAwait k (if k then Client.add_resolved 1 else Client.add 1) in
       let '(r, s) :=
         (c <- Client.build (VNum 0) [step k1; step k2; step k3] ;;
          Client.run_to_completion c) Client.initial in
       (r, now s))
    [(false, false, true); (false, true, false); (false, true, true);
     (true, false, false); (true, false, true); (true, true, false);
     (true, true, true)]
  = [(Normal (VNum 3), 1); (Normal (VNum 3), 2); (Normal (VNum 3), 3);
     (Normal (VNum 3), 2); (Normal (VNum 3), 3); (Normal (VNum 3), 3);
     (Normal (VNum 3), 4)].
Proof. reflexivity. Qed.

(** The test [Asynchronous pipe]. *)
Example asynchronous_pipe :
  fst ((c <- Client.build (VNum 42)
               [Client.Call_pipeAwait (Client.add_resolved 0);
                Client.Call_pipe (Client.add 1);
                Client.Call_pipeAwait (Client.mul_resolved 2)] ;;
        Client.run_to_completion c) Client.initial)
  = Normal (VNum 86).
Proof. reflexivity. Qed.

(* ================================================================== *)
(** ** Pipelines: misuse detection *)

(** C2, as stated, fails.  In
    [Do(42).pipeAwait((it) => Promise.resolve(it + 1))
           .pipe((it) => Promise.resolve(it * 2)).pipe(() => 7)]
    the second [pipe]d step returns a promise, and [done()] gives a promise
    fulfilled with [7]: no usage error. *)
Lemma interior_promise_not_detected :
  Client.build (VNum 42) Client.interior_promise_calls Client.initial
  = (Normal (Client.IsAsyncThunk Client.interior_promise_chain), Client.initial)
  /\ Client.misused Client.interior_promise_chain Client.initial = true
  /\ AsyncThunk.done Client.interior_promise_chain Client.initial
     = (Normal (VPromise 1 true (VNum 7)), {| world := 0; now := 0; calls := 4 |})
  /\ ~ Client.fails_with_usage_error Client.interior_promise_chain Client.initial.
Proof.
  split; [reflexivity|]. split; [reflexivity|]. split; [reflexivity|].
  intros (tick & s' & H). discriminate H.
Qed.

(** C2, amended.  When the last step of an [AsyncThunk] was appended with
    [pipe], the steps before it end normally with [x], and the last step
    returns a thenable for [x], then [done()] gives a promise rejected with
    the usage error, at the tick at which the steps ended. *)
Theorem done_rejects_final_promise (W : Type) (a : AsyncThunk.AsyncThunk W)
    (f : callback W) (s s1 : State W) (x p : value) (w' : W) :
  AsyncThunk.run_steps_await (AsyncThunk._steps a) VUndefined s = (Normal x, s1) ->
  f x (world s1) = (Normal p, w') ->
  is_thenable p = true ->
  (a' <- AsyncThunk.pipe a f ;; AsyncThunk.done a') s
  = (Normal (VPromise (now s1) false AsyncThunk.usage_error),
     {| world := w'; now := now s; calls := S (calls s1) |}).
Proof.
  intros Hloop Hf Hthen. destruct a as [steps]. simpl in *.
  unfold AsyncThunk.pipe. rewrite bind_ret_l. unfold AsyncThunk.done. simpl.
  rewrite isSimplePipeline_last. simpl.
  rewrite (@async_function_eq W _ s (Thrown AsyncThunk.usage_error)
             {| world := w'; now := now s1; calls := S (calls s1) |});
    [reflexivity|].
  erewrite bind_normal.
  2:{ rewrite run_steps_await_app. rewrite (bind_normal _ _ _ Hloop). simpl.
      erewrite bind_normal by (apply invoke_normal; exact Hf). reflexivity. }
  rewrite Hthen. reflexivity.
Qed.

(** The test [Fails on unprecedented Promise collapse]. *)
Lemma done_rejects_final_promise_witness :
  (a <- AsyncThunk.pipe
          (AsyncThunk.new [(false, Client.seed (VNum 42)); (true, Client.add_resolved 1)])
          (Client.mul_resolved 2) ;;
   AsyncThunk.done a) Client.initial
  = (Normal (VPromise 1 false AsyncThunk.usage_error),
     {| world := 0; now := 0; calls := 3 |}).
Proof.
  apply (@done_rejects_final_promise nat
           (AsyncThunk.new [(false, Client.seed (VNum 42)); (true, Client.add_resolved 1)])
           (Client.mul_resolved 2) Client.initial
           {| world := 0; now := 1; calls := 2 |}
           (VNum 43) (Promise_resolve (VNum 86)) 0).
  - reflexivity.
  - reflexivity.
  - reflexivity.
Defined.

(* ================================================================== *)
(** ** Pipelines: construction and [Thunk.done] *)

(** C8.  Building a chain invokes no step body: [Do] and every chain of
    [pipe], [pipeAwait], [rcall], [rcallAwait] and [tap] calls, on a
    [Thunk] or an [AsyncThunk], returns normally and leaves the program
    state, the clock and the count of invoked bodies as they were,
    whatever the bodies would do; the seed and the bodies are only stored,
    in the order of the calls. *)
Theorem construction_invokes_no_step (W : Type) :
  (forall v (s : State W), exists t, Do v s = (Normal t, s))
  /\ (forall (c : Client.chain W) (m : Client.method_call W) (s : State W),
      exists c',
        Client.call_method c m s = (Normal c', s)
        /\ Client.steps_of c' = Client.steps_of c ++ [Client.step_of m])
  /\ (forall v (ms : list (Client.method_call W)) (s : State W),
      exists c,
        Client.build v ms s = (Normal c, s)
        /\ Client.steps_of c = (false, Client.seed v) :: List.map Client.step_of ms).
Proof.
  split; [|split].
  - intros v s. eexists. reflexivity.
  - intros c m s. destruct (call_method_spec c m s) as (c' & H1 & H2 & _).
    exists c'. auto.
  - intros v ms s. destruct (build_spec v ms s) as (c & H1 & H2 & _).
    exists c. auto.
Qed.

(** The test [Pipe does not execute until done() is called], and what
    [done()] then does. *)
Example pipe_does_not_execute :
  snd (Client.build (VNum 42) [Client.Call_pipe Client.mark_called] Client.initial)
  = {| world := 0; now := 0; calls := 0 |}
  /\ (c <- Client.build (VNum 42) [Client.Call_pipe Client.mark_called] ;;
      Client.run_to_completion c) Client.initial
     = (Normal (VNum 42), {| world := 1; now := 0; calls := 2 |}).
Proof. split; reflexivity. Qed.

(** C9.  [Thunk.done()] runs the steps in the order in which they were
    appended: the first step is given [undefined], [Do(v).done()] is [v],
    the chain extended by [pipe(f)] runs the chain and then gives its
    result to [f], the clock never moves, and
    [Do(42).pipe(x => x + 1).pipe(x => x * 2).done()] is [86]. *)
Theorem Thunk_done_runs_in_order (W : Type) :
  (forall (f : SyncStep W) (rest : list (SyncStep W)) (s : State W),
      Thunk.done (Thunk.new (f :: rest)) s
      = (x <- invoke f VUndefined ;; Thunk.run_steps rest x) s)
  /\ (forall v (s : State W),
      (t <- Do v ;; Thunk.done t) s
      = (Normal v, {| world := world s; now := now s; calls := S (calls s) |}))
  /\ (forall (t : Thunk.Thunk W) (f : callback W) (s : State W),
      (t' <- Thunk.pipe t f ;; Thunk.done t') s
      = (x <- Thunk.done t ;; invoke f x) s)
  /\ (forall (t : Thunk.Thunk W) (s : State W),
      now (snd (Thunk.done t s)) = now s)
  /\ (forall s : State nat,
      (t0 <- Do (VNum 42) ;;
       t1 <- Thunk.pipe t0 (Client.add 1) ;;
       t2 <- Thunk.pipe t1 (Client.mul 2) ;;
       Thunk.done t2) s
      = (Normal (VNum 86),
         {| world := world s; now := now s; calls := 3 + calls s |})).
Proof.
  split; [|split; [|split; [|split]]].
  - reflexivity.
  - reflexivity.
  - intros [fs] f s. unfold Thunk.pipe. rewrite bind_ret_l.
    unfold Thunk.done. simpl. apply Thunk_run_steps_app.
  - intros [fs] s. apply Thunk_run_steps_now.
  - reflexivity.
Qed.

(* ================================================================== *)
(** ** The exception chain *)

Section ExceptionFacts.

Context {W : Type}.

Import Exception.

Implicit Types (s : State W) (pred : argument W) (e v : value).

Lemma holds_allocate_new s (result : Result) :
  holds (allocate s result) (length (heap s)) result.
Proof.
  unfold holds, allocate. simpl.
  rewrite nth_error_app2 by lia. rewrite Nat.sub_diag. reflexivity.
Qed.



Lemma get_result_holds s this (r : Result) :
  holds s this r -> get_result this s = (Normal r, s).
Proof. unfold holds, get_result. intros ->. reflexivity. Qed.

Lemma keeps_chains_bind {A B : Type} (m : JS W A) (k : A -> JS W B) :
  keeps_chains m -> (forall a, keeps_chains (k a)) -> keeps_chains (bind m k).
Proof.
  intros Hm Hk s chain r H. unfold bind.
  pose proof (Hm s chain r H) as H1.
  destruct (m s) as [[a|e] s1]; simpl in *.
  - apply Hk. exact H1.
  - exact H1.
Qed.

Lemma keeps_chains_ret {A : Type} (a : A) : keeps_chains (ret a : JS W A).
Proof. intros s chain r H. exact H. Qed.

Lemma keeps_chains_throw {A : Type} e : keeps_chains (throw e : JS W A).
Proof. intros s chain r H. exact H. Qed.


(** [isErrorOf] overwrites no chain when the functions of the predicate
    do not. *)
Lemma isErrorOf_keeps_chains e : forall pred,
  keeps_chains_pred pred -> keeps_chains (isErrorOf e pred).
Proof.
  fix IH 1. intros [P call|items|v] Hpred; simpl in *.
  - apply keeps_chains_bind.
    + destruct (prototype_instanceof P Error_prototype);
        [apply keeps_chains_ret|].
      destruct P; simpl; [|apply keeps_chains_throw].
      apply keeps_chains_bind; [apply keeps_chains_ret|].
      intros a. apply keeps_chains_ret.
    + intros [|]; [|apply Hpred].
      unfold instanceof. destruct (chain_of e); [|apply keeps_chains_bind;
        [apply keeps_chains_ret|intros; apply keeps_chains_ret]].
      destruct P; apply keeps_chains_bind;
        try apply keeps_chains_ret; try apply keeps_chains_throw;
        intros; apply keeps_chains_ret.
  - induction items as [|p items IHitems]; [apply keeps_chains_ret|].
    destruct Hpred as [Hp Hitems].
    apply keeps_chains_bind; [apply IH; exact Hp|].
    intros r. destruct (ToBoolean r); [apply keeps_chains_ret|].
    apply IHitems. exact Hitems.
  - apply keeps_chains_throw.
Qed.

(** A list predicate: the predicates are tried in order, the first that
    matches ends the search, and the later ones are not evaluated. *)
Lemma isErrorOf_list_cons e pred (items : list (argument W)) s :
  isErrorOf e (AArray (pred :: items)) s
  = match isErrorOf e pred s with
    | (Normal r, s') =>
        if ToBoolean r then (Normal (VBool true), s')
        else isErrorOf e (AArray items) s'
    | (Thrown x, s') => (Thrown x, s')
    end.
Proof.
  simpl. unfold bind. destruct (isErrorOf e pred s) as [[r|x] s']; [|reflexivity].
  destruct (ToBoolean r); reflexivity.
Qed.

Lemma isErrorOf_list_nil e s :
  isErrorOf e (AArray []) s = (Normal (VBool false), s).
Proof. reflexivity. Qed.

(** A function taken for a constructor is matched by [instanceof]. *)
Lemma isErrorOf_constructor e (p : prototype) (call : value -> JS W value) s :
  existsb (Nat.eqb (proto_self Error_prototype)) (proto_chain p) = true
  \/ hd_error (proto_chain p) <> Some (proto_self Object_prototype) ->
  isErrorOf e (AFunction (Some p) call) s
  = (Normal (VBool match chain_of e with
                   | Some chain => existsb (Nat.eqb (proto_self p)) chain
                   | None => false
                   end), s).
Proof.
  intros Hlikely. cbn [isErrorOf]. unfold prototype_instanceof, getPrototypeOf.
  assert (Hinst : (b <- instanceof e (Some p) ;; ret (VBool b)) s
                  = (Normal (VBool match chain_of e with
                                   | Some chain => existsb (Nat.eqb (proto_self p)) chain
                                   | None => false
                                   end), s)).
  { unfold instanceof. destruct (chain_of e); reflexivity. }
  destruct (existsb (Nat.eqb (proto_self Error_prototype)) (proto_chain p)) eqn:Herr.
  - rewrite bind_ret_l. exact Hinst.
  - destruct Hlikely as [H|H]; [congruence|].
    rewrite bind_assoc, bind_ret_l.
    destruct (hd_error (proto_chain p)) as [i|]; rewrite bind_ret_l; [|exact Hinst].
    destruct (Nat.eqb_spec i (proto_self Object_prototype)) as [->|Hne];
      [congruence|exact Hinst].
Qed.

(** A function expression is called, and its answer is the answer. *)
Lemma isErrorOf_function_expression e (self : proto_id) (call : value -> JS W value) s :
  isErrorOf e (function_expression self call) s = call e s.
Proof. reflexivity. Qed.

(** What is neither a function nor a list is refused. *)
Lemma isErrorOf_invalid e v s :
  isErrorOf e (AValue v) s
  = (Thrown (construct Error_prototype "Invalid predicate"), s).
Proof. reflexivity. Qed.

End ExceptionFacts.

(* ================================================================== *)
(** ** The exception chain: [Try] and [done] *)

(** C3.  [Try(f)] runs [f] at once and never raises: it returns a new
    chain that holds [Ok] of what [f] returned or [Err] of what [f] threw.
    Then [done()] returns the value of [Ok] and throws again the very
    error of [Err], and [done(fallback)], for a function [fallback],
    returns the value of [Ok] and gives the error of [Err] to [fallback];
    in particular [Try(() => v).done()] is [v]. *)
Theorem Try_then_done (W : Type) :
  (forall (f : Exception.JS W value) (s : Exception.State W),
      Exception.Try f s
      = match f s with
        | (Normal v, s') =>
            (Normal (length (Exception.heap s')), Exception.allocate s' (Exception.Ok v))
        | (Thrown e, s') =>
            (Normal (length (Exception.heap s')), Exception.allocate s' (Exception.Err e))
        end)
  /\ (forall (f : Exception.JS W value) (s : Exception.State W),
      (chain <- Exception.Try f ;; Exception.done chain None) s
      = match f s with
        | (Normal v, s') => (Normal v, Exception.allocate s' (Exception.Ok v))
        | (Thrown e, s') => (Thrown e, Exception.allocate s' (Exception.Err e))
        end)
  /\ (forall (f : Exception.JS W value) (P : option prototype)
             (fallback : value -> Exception.JS W value) (s : Exception.State W),
      (chain <- Exception.Try f ;;
       Exception.done chain (Some (Exception.AFunction P fallback))) s
      = match f s with
        | (Normal v, s') => (Normal v, Exception.allocate s' (Exception.Ok v))
        | (Thrown e, s') => fallback e (Exception.allocate s' (Exception.Err e))
        end)
  /\ (forall (v : value) (s : Exception.State W),
      (chain <- Exception.Try (ret v) ;; Exception.done chain None) s
      = (Normal v, Exception.allocate s (Exception.Ok v)))
  /\ (forall (e : value) (s : Exception.State W),
      (chain <- Exception.Try (Exception.Throw e) ;; Exception.done chain None) s
      = (Thrown e, Exception.allocate s (Exception.Err e)))
  /\ (forall (e : value) (P : option prototype)
             (fallback : value -> Exception.JS W value) (s : Exception.State W),
      (chain <- Exception.Try (Exception.Throw e) ;;
       Exception.done chain (Some (Exception.AFunction P fallback))) s
      = fallback e (Exception.allocate s (Exception.Err e))).
Proof.
  assert (Hdone : forall (f : Exception.JS W value) arg s,
    (chain <- Exception.Try f ;; Exception.done chain arg) s
    = match f s with
      | (Normal v, s') =>
          Exception.done (length (Exception.heap s')) arg
            (Exception.allocate s' (Exception.Ok v))
      | (Thrown e, s') =>
          Exception.done (length (Exception.heap s')) arg
            (Exception.allocate s' (Exception.Err e))
      end).
  { intros f arg s. unfold bind, Exception.Try.
    destruct (f s) as [[v|e] s']; reflexivity. }
  assert (Hget : forall (s : Exception.State W) (r : Exception.Result),
    Exception.get_result (length (Exception.heap s)) (Exception.allocate s r)
    = (Normal r, Exception.allocate s r)).
  { intros s r. apply get_result_holds, holds_allocate_new. }
  assert (Hnone : forall (f : Exception.JS W value) s,
    (chain <- Exception.Try f ;; Exception.done chain None) s
    = match f s with
      | (Normal v, s') => (Normal v, Exception.allocate s' (Exception.Ok v))
      | (Thrown e, s') => (Thrown e, Exception.allocate s' (Exception.Err e))
      end).
  { intros f s. rewrite Hdone. destruct (f s) as [[v|e] s'];
      unfold Exception.done; rewrite (bind_normal _ _ _ (Hget _ _)); reflexivity. }
  assert (Hsome : forall (f : Exception.JS W value) P fallback s,
    (chain <- Exception.Try f ;;
     Exception.done chain (Some (Exception.AFunction P fallback))) s
    = match f s with
      | (Normal v, s') => (Normal v, Exception.allocate s' (Exception.Ok v))
      | (Thrown e, s') => fallback e (Exception.allocate s' (Exception.Err e))
      end).
  { intros f P fallback s. rewrite Hdone. destruct (f s) as [[v|e] s'];
      unfold Exception.done; rewrite (bind_normal _ _ _ (Hget _ _)); reflexivity. }
  split; [|split; [|split; [|split; [|split]]]].
  - intros f s. unfold Exception.Try. destruct (f s) as [[v|e] s']; reflexivity.
  - exact Hnone.
  - exact Hsome.
  - intros v s. apply Hnone.
  - intros e s. apply Hnone.
  - intros e P fallback s. apply Hsome.
Qed.

(** The first example of the documentation with an input that throws, and
    a fallback that throws in turn. *)
Example Try_done_fallback :
  fst ((chain <- Exception.Try (Exception.Throw Exception.bad) ;;
        Exception.done chain (Some (Exception.arrow_function Exception.forty_two)))
         Exception.start)
  = Normal (VNum 42)
  /\ fst ((chain <- Exception.Try (Exception.Throw Exception.bad) ;;
           Exception.done chain
             (Some (Exception.arrow_function
                      (fun e => Exception.Throw (VStr "wrapped")))))
            Exception.start)
     = Thrown (VStr "wrapped").
Proof. split; reflexivity. Qed.

(** C10.  On a chain that holds [Err e], [done] with a fallback argument
    that is given but falsy, as in [done(undefined)], throws [e] again and
    calls nothing: the branch is taken on the truthiness of the
    parameter. *)
Theorem done_falsy_fallback_rethrows (W : Type) (this : nat) (e : value)
    (fallback : Exception.argument W) (s : Exception.State W) :
  Exception.holds s this (Exception.Err e) ->
  Exception.truthy fallback = false ->
  Exception.done this (Some fallback) s = (Thrown e, s)
  /\ Exception.done this (Some fallback) s = Exception.done this None s.
Proof.
  intros Hholds Hfalsy. unfold Exception.done.
  rewrite !(bind_normal _ _ _ (get_result_holds Hholds)), Hfalsy. split; reflexivity.
Qed.

(** [done(undefined)] on a chain that holds [new TypeError("bad")]. *)
Lemma done_falsy_fallback_rethrows_witness :
  Exception.done 0 (Some (Exception.AValue VUndefined)) Exception.start
  = (Thrown Exception.bad, Exception.start)
  /\ Exception.done 0 (Some (Exception.AValue VUndefined)) Exception.start
     = Exception.done 0 None Exception.start.
Proof.
  apply (@done_falsy_fallback_rethrows nat 0 Exception.bad
           (Exception.AValue VUndefined) Exception.start).
  - reflexivity.
  - reflexivity.
Defined.

(* ================================================================== *)
(** ** The exception chain: [pick] and [case] *)

(** The branches of [pick], relative to the answer of [isErrorOf]: on a
    chain that holds [Ok v] a new chain that holds [Ok v]; on a chain that
    holds [Err e] a new chain that holds [Err e] when the answer is truthy,
    and [e] thrown when it is falsy. *)
Lemma pick_passes_or_rethrows (W : Type) (this : nat)
    (pred : Exception.argument W) (s : Exception.State W) :
  (forall v,
      Exception.holds s this (Exception.Ok v) ->
      Exception.pick this pred s
      = (Normal (length (Exception.heap s)), Exception.allocate s (Exception.Ok v))
      /\ Exception.holds (Exception.allocate s (Exception.Ok v))
           (length (Exception.heap s)) (Exception.Ok v))
  /\ (forall e matched s1,
      Exception.holds s this (Exception.Err e) ->
      Exception.isErrorOf e pred s = (Normal matched, s1) ->
      ToBoolean matched = true ->
      Exception.pick this pred s
      = (Normal (length (Exception.heap s1)), Exception.allocate s1 (Exception.Err e))
      /\ Exception.holds (Exception.allocate s1 (Exception.Err e))
           (length (Exception.heap s1)) (Exception.Err e))
  /\ (forall e matched s1,
      Exception.holds s this (Exception.Err e) ->
      Exception.isErrorOf e pred s = (Normal matched, s1) ->
      ToBoolean matched = false ->
      Exception.pick this pred s = (Thrown e, s1)).
Proof.
  split; [|split].
  - intros v Hholds. split; [|apply holds_allocate_new].
    unfold Exception.pick. rewrite (bind_normal _ _ _ (get_result_holds Hholds)).
    reflexivity.
  - intros e matched s1 Hholds Hpred Hmatched. split; [|apply holds_allocate_new].
    unfold Exception.pick. rewrite (bind_normal _ _ _ (get_result_holds Hholds)).
    rewrite (bind_normal _ _ _ Hpred), Hmatched. reflexivity.
  - intros e matched s1 Hholds Hpred Hmatched.
    unfold Exception.pick. rewrite (bind_normal _ _ _ (get_result_holds Hholds)).
    rewrite (bind_normal _ _ _ Hpred), Hmatched. reflexivity.
Qed.

(** [pick(TypeError)] on [Ok 1], [pick(TypeError)] on
    [Err (new TypeError("bad"))], and [pick(DemoError)] on the same. *)
Lemma pick_passes_or_rethrows_witness :
  Exception.pick 1 Exception.TypeError_constructor Exception.start
  = (Normal 2, Exception.allocate Exception.start (Exception.Ok (VNum 1)))
  /\ Exception.pick 0 Exception.TypeError_constructor Exception.start
     = (Normal 2, Exception.allocate Exception.start (Exception.Err Exception.bad))
  /\ Exception.pick 0 Exception.DemoError_constructor Exception.start
     = (Thrown Exception.bad, Exception.start).
Proof.
  split; [|split].
  - apply (proj1 (@pick_passes_or_rethrows nat 1 Exception.TypeError_constructor
                    Exception.start) (VNum 1)).
    reflexivity.
  - apply (proj1 (proj2 (@pick_passes_or_rethrows nat 0 Exception.TypeError_constructor
                           Exception.start))
             Exception.bad (VBool true) Exception.start).
    + reflexivity.
    + reflexivity.
    + reflexivity.
  - apply (proj2 (proj2 (@pick_passes_or_rethrows nat 0 Exception.DemoError_constructor
                           Exception.start))
             Exception.bad (VBool false) Exception.start).
    + reflexivity.
    + reflexivity.
    + reflexivity.
Defined.

(** The branches of [case], relative to the answer of [isErrorOf]: on a
    chain that holds [Ok] the receiver; on a chain that holds [Err e], when
    the answer is truthy, the handler called with a new chain that holds
    [Err e] and its result in a new [Ok] chain, and when it is falsy the
    receiver, which still holds [Err e] (the functions of [pred]
    overwriting no chain). *)
Lemma case_handles_or_passes (W : Type) (this : nat)
    (pred : Exception.argument W) (f : nat -> Exception.JS W value)
    (s : Exception.State W) :
  (forall v,
      Exception.holds s this (Exception.Ok v) ->
      Exception.case this pred f s = (Normal this, s))
  /\ (forall e matched s1 result s2,
      Exception.holds s this (Exception.Err e) ->
      Exception.isErrorOf e pred s = (Normal matched, s1) ->
      ToBoolean matched = true ->
      f (length (Exception.heap s1)) (Exception.allocate s1 (Exception.Err e))
      = (Normal result, s2) ->
      Exception.holds (Exception.allocate s1 (Exception.Err e))
        (length (Exception.heap s1)) (Exception.Err e)
      /\ Exception.case this pred f s
         = (Normal (length (Exception.heap s2)),
            Exception.allocate s2 (Exception.Ok result))
      /\ Exception.holds (Exception.allocate s2 (Exception.Ok result))
           (length (Exception.heap s2)) (Exception.Ok result))
  /\ (forall e matched s1,
      Exception.holds s this (Exception.Err e) ->
      Exception.isErrorOf e pred s = (Normal matched, s1) ->
      ToBoolean matched = false ->
      Exception.keeps_chains_pred pred ->
      Exception.case this pred f s = (Normal this, s1)
      /\ Exception.holds s1 this (Exception.Err e)).
Proof.
  split; [|split].
  - intros v Hholds.
    unfold Exception.case. rewrite (bind_normal _ _ _ (get_result_holds Hholds)).
    reflexivity.
  - intros e matched s1 result s2 Hholds Hpred Hmatched Hf.
    split; [apply holds_allocate_new|]. split; [|apply holds_allocate_new].
    unfold Exception.case. rewrite (bind_normal _ _ _ (get_result_holds Hholds)).
    rewrite (bind_normal _ _ _ Hpred), Hmatched.
    unfold Exception.new_TryChain at 1. unfold bind at 1.
    rewrite (bind_normal _ _ _ Hf). reflexivity.
  - intros e matched s1 Hholds Hpred Hmatched Hkeeps. split.
    + unfold Exception.case. rewrite (bind_normal _ _ _ (get_result_holds Hholds)).
      rewrite (bind_normal _ _ _ Hpred), Hmatched. reflexivity.
    + pose proof (isErrorOf_keeps_chains e pred Hkeeps Hholds) as Hstill.
      rewrite Hpred in Hstill. exact Hstill.
Qed.

(** [case(TypeError, (sub) => sub.done(() => 42))] on [Ok 1] and on
    [Err (new TypeError("bad"))], and [case(DemoError, ...)] on the
    latter. *)
Lemma case_handles_or_passes_witness :
  Exception.case 1 Exception.TypeError_constructor
    (fun sub => Exception.done sub (Some (Exception.arrow_function Exception.forty_two)))
    Exception.start
  = (Normal 1, Exception.start)
  /\ Exception.case 0 Exception.TypeError_constructor
       (fun sub => Exception.done sub (Some (Exception.arrow_function Exception.forty_two)))
       Exception.start
     = (Normal 3,
        {| Exception.heap := [Exception.Err Exception.bad; Exception.Ok (VNum 1);
                              Exception.Err Exception.bad; Exception.Ok (VNum 42)];
           Exception.world := 0 |})
  /\ Exception.case 0 Exception.DemoError_constructor
       (fun sub => Exception.done sub (Some (Exception.arrow_function Exception.forty_two)))
       Exception.start
     = (Normal 0, Exception.start).
Proof.
  split; [|split].
  - apply (proj1 (@case_handles_or_passes nat 1 Exception.TypeError_constructor _
                    Exception.start) (VNum 1)).
    reflexivity.
  - apply (proj1 (proj2 (@case_handles_or_passes nat 0 Exception.TypeError_constructor
             (fun sub => Exception.done sub
                           (Some (Exception.arrow_function Exception.forty_two)))
             Exception.start))
             Exception.bad (VBool true) Exception.start (VNum 42)
             (Exception.allocate Exception.start (Exception.Err Exception.bad))).
    + reflexivity.
    + reflexivity.
    + reflexivity.
    + reflexivity.
  - refine (proj1 (proj2 (proj2 (@case_handles_or_passes nat 0
             Exception.DemoError_constructor
             (fun sub => Exception.done sub
                           (Some (Exception.arrow_function Exception.forty_two)))
             Exception.start))
             Exception.bad (VBool false) Exception.start _ _ _ _)).
    + reflexivity.
    + reflexivity.
    + reflexivity.
    + intros e s chain result H. exact H.
Defined.

(* ================================================================== *)
(** ** The exception chain: [isErrorOf] *)

(** C6.  [isErrorOf] at an arrow function and at [Error].  An arrow
    function has no [prototype] property, so that
    [Object.getPrototypeOf(pred.prototype)] throws a TypeError before the
    function is called, whatever it would answer.  The prototype object of
    [Error] inherits from [Object.prototype] and is no instance of [Error],
    so that [Error] is taken for a classifier function and called: the
    answer is the new error object, which is truthy, for every [e]. *)
Theorem isErrorOf_arrow_function_and_Error (W : Type) :
  (forall (call : value -> Exception.JS W value) (e : value) (s : Exception.State W),
      Exception.isErrorOf e (Exception.arrow_function call) s
      = (Thrown (construct TypeError_prototype
                   "Cannot convert undefined or null to object"), s))
  /\ (forall (e : value) (s : Exception.State W),
      Exception.isErrorOf e Exception.Error_constructor s
      = (Normal (construct Error_prototype (Exception.message_of e)), s)
      /\ ToBoolean (construct Error_prototype (Exception.message_of e)) = true)
  /\ (forall s : Exception.State W,
      Exception.is_TypeError Exception.bad s = (Normal (VBool true), s)
      /\ Exception.isErrorOf Exception.bad
           (Exception.arrow_function Exception.is_TypeError) s
         = (Thrown (construct TypeError_prototype
                      "Cannot convert undefined or null to object"), s))
  /\ (forall s : Exception.State W,
      instanceof (VNum 42) (Some Error_prototype) s = (Normal false, s)
      /\ Exception.isErrorOf (VNum 42) Exception.Error_constructor s
         = (Normal (construct Error_prototype "42"), s)).
Proof.
  split; [|split; [|split]].
  - reflexivity.
  - intros e s. split; reflexivity.
  - intros s. split; reflexivity.
  - intros s. split; reflexivity.
Qed.

(** The predicates of the test-suite, which the heuristic gets right or
    for which its error does not show: [pick(Error)] and [pick(DemoError)]
    followed by [done(() => 42)]. *)
Example test_suite_picks :
  fst ((chain <- Exception.Try (Exception.Throw (construct Error_prototype "")) ;;
        picked <- Exception.pick chain Exception.Error_constructor ;;
        Exception.done picked (Some (Exception.arrow_function Exception.forty_two)))
         Exception.start) = Normal (VNum 42)
  /\ fst ((chain <- Exception.Try (Exception.Throw Exception.bad) ;;
           picked <- Exception.pick chain Exception.Error_constructor ;;
           Exception.done picked (Some (Exception.arrow_function Exception.forty_two)))
            Exception.start) = Normal (VNum 42)
  /\ fst ((chain <- Exception.Try
                      (Exception.Throw (construct Exception.DemoError_prototype "demo")) ;;
           picked <- Exception.pick chain Exception.DemoError_constructor ;;
           Exception.done picked (Some (Exception.arrow_function Exception.forty_two)))
            Exception.start) = Normal (VNum 42).
Proof. repeat split. Qed.

(* ================================================================== *)
(** ** The exception chain: instances *)

Section Instances.

Context {W : Type}.

Import Exception.







End Instances.




(* ================================================================== *)
(** ** The exception chain: how the methods compose *)

Section ChainComposition.

Context {W : Type}.

Import Exception.

Implicit Types (s : State W) (e v : value).

Lemma get_new s (r : Result) :
  get_result (length (heap s)) (allocate s r) = (Normal r, allocate s r).
Proof. apply get_result_holds, holds_allocate_new. Qed.

Lemma Try_bind {A : Type} (f : JS W value) (k : nat -> JS W A) s :
  (chain <- Try f ;; k chain) s
  = match f s with
    | (Normal v, s1) => k (length (heap s1)) (allocate s1 (Ok v))
    | (Thrown e, s1) => k (length (heap s1)) (allocate s1 (Err e))
    end.
Proof. unfold bind, Try. destruct (f s) as [[v|e] s1]; reflexivity. Qed.

Lemma done_new s (r : Result) arg :
  done (length (heap s)) arg (allocate s r)
  = match r with
    | Ok v => (Normal v, allocate s r)
    | Err e =>
        (let fallback := match arg with Some a => a | None => AValue VUndefined end in
         if truthy fallback then apply fallback e else throw e) (allocate s r)
    end.
Proof. unfold done. rewrite (bind_normal _ _ _ (get_new s r)). destruct r; reflexivity. Qed.

End ChainComposition.

(** X1.  [Try(f).map(g).done(fallback)]: when [f] returns [v] the result
    is [g(v)], and what [g] throws is thrown by [map], past the fallback;
    when [f] throws [e], [g] is not called and the result is
    [fallback(e)]. *)
Theorem Try_map_done (W : Type) (f : Exception.JS W value)
    (g : value -> Exception.JS W value) (P : option prototype)
    (fallback : value -> Exception.JS W value) (s : Exception.State W) :
  (chain <- Exception.Try f ;;
   mapped <- Exception.map chain g ;;
   Exception.done mapped (Some (Exception.AFunction P fallback))) s
  = match f s with
    | (Normal v, s1) =>
        match g v (Exception.allocate s1 (Exception.Ok v)) with
        | (Normal x, s2) => (Normal x, Exception.allocate s2 (Exception.Ok x))
        | (Thrown x, s2) => (Thrown x, s2)
        end
    | (Thrown e, s1) =>
        fallback e
          (Exception.allocate (Exception.allocate s1 (Exception.Err e)) (Exception.Err e))
    end.
Proof.
  rewrite Try_bind. destruct (f s) as [[v|e] s1].
  - unfold Exception.map at 1. rewrite bind_assoc.
    rewrite (bind_normal _ _ _ (get_new s1 (Exception.Ok v))).
    rewrite bind_assoc. unfold bind at 1.
    destruct (g v (Exception.allocate s1 (Exception.Ok v))) as [[x|x] s2]; [|reflexivity].
    unfold Exception.new_TryChain, bind. rewrite done_new. reflexivity.
  - unfold Exception.map at 1. rewrite bind_assoc.
    rewrite (bind_normal _ _ _ (get_new s1 (Exception.Err e))).
    unfold Exception.new_TryChain, bind. rewrite done_new. reflexivity.
Qed.

(** X2.  [Try(f).tap(log).done(fallback)]: when [f] returns [v], [log] is
    not called and the result is [v]; when [f] throws [e], [log(e)] runs
    first, what it returns is dropped and what it throws is thrown by
    [tap], and then the result is [fallback(e)] ([log] overwriting no
    chain). *)
Theorem Try_tap_done (W : Type) (f : Exception.JS W value)
    (log : value -> Exception.JS W value) (P : option prototype)
    (fallback : value -> Exception.JS W value) (s : Exception.State W) :
  (forall e, Exception.keeps_chains (log e)) ->
  (chain <- Exception.Try f ;;
   tapped <- Exception.tap chain log ;;
   Exception.done tapped (Some (Exception.AFunction P fallback))) s
  = match f s with
    | (Normal v, s1) => (Normal v, Exception.allocate s1 (Exception.Ok v))
    | (Thrown e, s1) =>
        match log e (Exception.allocate s1 (Exception.Err e)) with
        | (Normal _, s2) => fallback e s2
        | (Thrown x, s2) => (Thrown x, s2)
        end
    end.
Proof.
  intros Hlog. rewrite Try_bind. destruct (f s) as [[v|e] s1].
  - unfold Exception.tap at 1. rewrite bind_assoc.
    rewrite (bind_normal _ _ _ (get_new s1 (Exception.Ok v))).
    rewrite bind_ret_l, done_new. reflexivity.
  - unfold Exception.tap at 1. rewrite bind_assoc.
    rewrite (bind_normal _ _ _ (get_new s1 (Exception.Err e))).
    rewrite bind_assoc. unfold bind at 1.
    pose proof (Hlog e _ _ _ (holds_allocate_new s1 (Exception.Err e))) as Hstill.
    destruct (log e (Exception.allocate s1 (Exception.Err e))) as [[x|x] s2];
      [|reflexivity].
    simpl in Hstill. rewrite bind_ret_l. unfold Exception.done.
    rewrite (bind_normal _ _ _ (get_result_holds Hstill)). reflexivity.
Qed.

(** [Try(() => { throw new TypeError("bad") }).tap(count).done(() => 42)]. *)
Lemma Try_tap_done_witness :
  (chain <- Exception.Try (Exception.Throw Exception.bad) ;;
   tapped <- Exception.tap chain Exception.count_up ;;
   Exception.done tapped (Some (Exception.AFunction None Exception.forty_two)))
    Exception.start
  = (Normal (VNum 42),
     {| Exception.heap := [Exception.Err Exception.bad; Exception.Ok (VNum 1);
                           Exception.Err Exception.bad];
        Exception.world := 1 |}).
Proof.
  rewrite (@Try_tap_done nat (Exception.Throw Exception.bad) Exception.count_up None
             Exception.forty_two Exception.start).
  - reflexivity.
  - intros e s chain r H. exact H.
Defined.

(** X3.  [Try(f).pick(C).done(fallback)] for a constructor [C] whose
    prototype object inherits from [Error.prototype]: the value of [f]
    when [f] returns, [fallback(e)] when [f] throws an instance [e] of [C]
    or of a subclass, and [e] thrown again when [f] throws anything else;
    [C] itself is never called. *)
Theorem Try_pick_done (W : Type) (f : Exception.JS W value) (p : prototype)
    (call : value -> Exception.JS W value) (P : option prototype)
    (fallback : value -> Exception.JS W value) (s : Exception.State W) :
  existsb (Nat.eqb (proto_self Error_prototype)) (proto_chain p) = true ->
  (chain <- Exception.Try f ;;
   picked <- Exception.pick chain (Exception.AFunction (Some p) call) ;;
   Exception.done picked (Some (Exception.AFunction P fallback))) s
  = match f s with
    | (Normal v, s1) =>
        (Normal v,
         Exception.allocate (Exception.allocate s1 (Exception.Ok v)) (Exception.Ok v))
    | (Thrown e, s1) =>
        if ExceptionAsync.is_instance e p then
          fallback e
            (Exception.allocate (Exception.allocate s1 (Exception.Err e))
               (Exception.Err e))
        else (Thrown e, Exception.allocate s1 (Exception.Err e))
    end.
Proof.
  intros Herr. rewrite Try_bind. destruct (f s) as [[v|e] s1].
  - unfold Exception.pick at 1. rewrite bind_assoc.
    rewrite (bind_normal _ _ _ (get_new s1 (Exception.Ok v))).
    unfold Exception.new_TryChain, bind. rewrite done_new. reflexivity.
  - unfold Exception.pick at 1. rewrite bind_assoc.
    rewrite (bind_normal _ _ _ (get_new s1 (Exception.Err e))).
    rewrite bind_assoc.
    rewrite (bind_normal _ _ _
               (isErrorOf_constructor e p call
                  (Exception.allocate s1 (Exception.Err e)) (or_introl Herr))).
    unfold ExceptionAsync.is_instance.
    destruct (match chain_of e with
              | Some chain => existsb (Nat.eqb (proto_self p)) chain
              | None => false
              end); simpl.
    + unfold Exception.new_TryChain, bind. rewrite done_new. reflexivity.
    + reflexivity.
Qed.

(** The tests [Try pick Error and catch subclass DemoError] and a
    [pick(DemoError)] that lets a [TypeError] through. *)
Lemma Try_pick_done_witness :
  (chain <- Exception.Try
              (Exception.Throw (construct Exception.DemoError_prototype "demo")) ;;
   picked <- Exception.pick chain Exception.DemoError_constructor ;;
   Exception.done picked (Some (Exception.AFunction None Exception.forty_two)))
    Exception.start
  = (Normal (VNum 42),
     Exception.allocate
       (Exception.allocate Exception.start
          (Exception.Err (construct Exception.DemoError_prototype "demo")))
       (Exception.Err (construct Exception.DemoError_prototype "demo")))
  /\ (chain <- Exception.Try (Exception.Throw Exception.bad) ;;
      picked <- Exception.pick chain Exception.DemoError_constructor ;;
      Exception.done picked (Some (Exception.AFunction None Exception.forty_two)))
       Exception.start
     = (Thrown Exception.bad,
        Exception.allocate Exception.start (Exception.Err Exception.bad)).
Proof.
  unfold Exception.DemoError_constructor. split.
  - rewrite Try_pick_done by reflexivity. reflexivity.
  - rewrite Try_pick_done by reflexivity. reflexivity.
Defined.

(* ================================================================== *)
(** ** [isErrorOf]: constructors, lists, invalid predicates *)

(** X4.  For a constructor [C] whose prototype object inherits from
    [Error.prototype], [isErrorOf(e, C)] is [e instanceof C]: a boolean,
    computed without calling [C] and without any effect.  It is [true] for
    an instance of [C] and for an instance of any class whose prototype
    chain goes through that of [C], and [false] for every primitive. *)
Theorem isErrorOf_Error_subclass (W : Type) (p : prototype)
    (call : value -> Exception.JS W value) :
  existsb (Nat.eqb (proto_self Error_prototype)) (proto_chain p) = true ->
  (forall (e : value) (s : Exception.State W),
      Exception.isErrorOf e (Exception.AFunction (Some p) call) s
      = (Normal (VBool (ExceptionAsync.is_instance e p)), s))
  /\ (forall (q : prototype) (message : string),
      In (proto_self p) (proto_self q :: proto_chain q) ->
      ExceptionAsync.is_instance (construct q message) p = true)
  /\ (forall e : value, chain_of e = None -> ExceptionAsync.is_instance e p = false).
Proof.
  intros Herr. split; [|split].
  - intros e s. apply isErrorOf_constructor. left. exact Herr.
  - intros q message Hin. unfold ExceptionAsync.is_instance, construct. simpl chain_of.
    apply existsb_exists. exists (proto_self p). split; [exact Hin|apply Nat.eqb_refl].
  - intros e He. unfold ExceptionAsync.is_instance. rewrite He. reflexivity.
Qed.

(** [DemoError] against an instance of a subclass, against a [TypeError]
    and against a number. *)
Lemma isErrorOf_Error_subclass_witness :
  Exception.isErrorOf ExceptionAsync.sub_demo Exception.DemoError_constructor
    Exception.start = (Normal (VBool true), Exception.start)
  /\ Exception.isErrorOf Exception.bad Exception.DemoError_constructor
       Exception.start = (Normal (VBool false), Exception.start)
  /\ ExceptionAsync.is_instance (construct (Prototype 11 [10; 1; 0]) "sub")
       Exception.DemoError_prototype = true
  /\ ExceptionAsync.is_instance (VNum 42) Exception.DemoError_prototype = false.
Proof.
  destruct (@isErrorOf_Error_subclass nat Exception.DemoError_prototype
              (fun _ => throw (construct TypeError_prototype
                 "Class constructor DemoError cannot be invoked without 'new'"))
              eq_refl) as (Hcode & Hsub & Hprim).
  split; [|split; [|split]].
  - apply (Hcode ExceptionAsync.sub_demo Exception.start).
  - apply (Hcode Exception.bad Exception.start).
  - apply Hsub. simpl. auto.
  - apply Hprim. reflexivity.
Defined.

Section ListPredicates.

Context {W : Type}.

Lemma isErrorOf_list_decline (e : value) (ps : list (Exception.argument W)) :
  forall (rest : list (Exception.argument W)) (s s' : Exception.State W),
    ExceptionAsync.all_decline e ps s s' ->
    Exception.isErrorOf e (Exception.AArray (ps ++ rest)) s
    = Exception.isErrorOf e (Exception.AArray rest) s'.
Proof.
  induction ps as [|p ps IH]; intros rest s s' Hps; simpl in Hps.
  - subst s'. reflexivity.
  - destruct Hps as (r & s1 & Hp & Hr & Hrest).
    rewrite <- app_comm_cons, isErrorOf_list_cons, Hp, Hr. apply IH. exact Hrest.
Qed.

End ListPredicates.

(** X5.  A list predicate is tried from left to right.  When the
    predicates before [p] all answer falsy and [p] answers truthy, the
    list matches and nothing after [p] is evaluated, whatever it is.  When
    all answer falsy, the list does not match; so the empty list matches
    nothing.  When the predicates before [p] answer falsy and [p] throws,
    the list throws the same. *)
Theorem isErrorOf_list_first_match (W : Type) (e : value)
    (before : list (Exception.argument W)) (s s1 : Exception.State W) :
  ExceptionAsync.all_decline e before s s1 ->
  (forall (p : Exception.argument W) (after : list (Exception.argument W))
          (r : value) (s2 : Exception.State W),
      Exception.isErrorOf e p s1 = (Normal r, s2) ->
      ToBoolean r = true ->
      Exception.isErrorOf e (Exception.AArray (before ++ p :: after)) s
      = (Normal (VBool true), s2))
  /\ Exception.isErrorOf e (Exception.AArray before) s = (Normal (VBool false), s1)
  /\ (forall (p : Exception.argument W) (after : list (Exception.argument W))
             (x : value) (s2 : Exception.State W),
      Exception.isErrorOf e p s1 = (Thrown x, s2) ->
      Exception.isErrorOf e (Exception.AArray (before ++ p :: after)) s
      = (Thrown x, s2)).
Proof.
  intros Hbefore. split; [|split].
  - intros p after r s2 Hp Hr.
    rewrite (@isErrorOf_list_decline W e before (p :: after) s s1 Hbefore).
    rewrite isErrorOf_list_cons, Hp, Hr. reflexivity.
  - rewrite <- (app_nil_r before) at 1.
    rewrite (@isErrorOf_list_decline W e before [] s s1 Hbefore). reflexivity.
  - intros p after x s2 Hp.
    rewrite (@isErrorOf_list_decline W e before (p :: after) s s1 Hbefore).
    rewrite isErrorOf_list_cons, Hp. reflexivity.
Qed.

(** [[DemoError, TypeError, 5]] against [new TypeError("bad")]: the
    invalid predicate [5] is not reached; [[DemoError]] alone does not
    match; and [[DemoError, 5, TypeError]] throws. *)
Lemma isErrorOf_list_first_match_witness :
  Exception.isErrorOf Exception.bad
    (Exception.AArray ([Exception.DemoError_constructor]
                       ++ Exception.TypeError_constructor
                          :: [Exception.AValue (VNum 5)])) Exception.start
  = (Normal (VBool true), Exception.start)
  /\ Exception.isErrorOf Exception.bad
       (Exception.AArray [Exception.DemoError_constructor]) Exception.start
     = (Normal (VBool false), Exception.start)
  /\ Exception.isErrorOf Exception.bad
       (Exception.AArray ([Exception.DemoError_constructor]
                          ++ Exception.AValue (VNum 5)
                             :: [Exception.TypeError_constructor])) Exception.start
     = (Thrown (construct Error_prototype "Invalid predicate"), Exception.start).
Proof.
  assert (Hdecline : ExceptionAsync.all_decline Exception.bad
            [Exception.DemoError_constructor] Exception.start Exception.start).
  { simpl. exists (VBool false), Exception.start. repeat split. }
  destruct (@isErrorOf_list_first_match nat Exception.bad
              [Exception.DemoError_constructor] Exception.start Exception.start
              Hdecline) as (Hmatch & Hnone & Hthrow).
  split; [|split].
  - apply (Hmatch Exception.TypeError_constructor [Exception.AValue (VNum 5)]
             (VBool true) Exception.start); reflexivity.
  - exact Hnone.
  - apply (Hthrow (Exception.AValue (VNum 5)) [Exception.TypeError_constructor]
             (construct Error_prototype "Invalid predicate") Exception.start).
    reflexivity.
Defined.

(** X6.  An invalid predicate is reported only when it is consulted: on a
    chain that holds [Err e], [pick] and [case] throw the usage error
    [Invalid predicate] in place of [e], which is lost, and the handler of
    [case] is not called; on a chain that holds [Ok], both return
    normally. *)
Theorem invalid_predicate_on_Err (W : Type) (this : nat) (v : value)
    (f : nat -> Exception.JS W value) (s : Exception.State W) :
  (forall e,
      Exception.holds s this (Exception.Err e) ->
      Exception.pick this (Exception.AValue v) s
      = (Thrown (construct Error_prototype "Invalid predicate"), s)
      /\ Exception.case this (Exception.AValue v) f s
         = (Thrown (construct Error_prototype "Invalid predicate"), s))
  /\ (forall x,
      Exception.holds s this (Exception.Ok x) ->
      Exception.pick this (Exception.AValue v) s
      = (Normal (length (Exception.heap s)), Exception.allocate s (Exception.Ok x))
      /\ Exception.case this (Exception.AValue v) f s = (Normal this, s)).
Proof.
  split.
  - intros e Hholds. unfold Exception.pick, Exception.case.
    rewrite !(bind_normal _ _ _ (get_result_holds Hholds)). split; reflexivity.
  - intros x Hholds. unfold Exception.pick, Exception.case.
    rewrite !(bind_normal _ _ _ (get_result_holds Hholds)). split; reflexivity.
Qed.

(** [pick(5)] and [case(5, ...)] on the chains of [start]. *)
Lemma invalid_predicate_on_Err_witness :
  (Exception.pick 0 (Exception.AValue (VNum 5)) Exception.start
   = (Thrown (construct Error_prototype "Invalid predicate"), Exception.start)
   /\ Exception.case 0 (Exception.AValue (VNum 5))
        (fun sub => Exception.done sub None) Exception.start
      = (Thrown (construct Error_prototype "Invalid predicate"), Exception.start))
  /\ (Exception.pick 1 (Exception.AValue (VNum 5)) Exception.start
      = (Normal 2, Exception.allocate Exception.start (Exception.Ok (VNum 1)))
      /\ Exception.case 1 (Exception.AValue (VNum 5))
           (fun sub => Exception.done sub None) Exception.start
         = (Normal 1, Exception.start)).
Proof.
  split.
  - apply (proj1 (@invalid_predicate_on_Err nat 0 (VNum 5)
                    (fun sub => Exception.done sub None) Exception.start)
             Exception.bad).
    reflexivity.
  - apply (proj2 (@invalid_predicate_on_Err nat 1 (VNum 5)
                    (fun sub => Exception.done sub None) Exception.start)
             (VNum 1)).
    reflexivity.
Defined.

Lemma case_matched (W : Type) (this : nat) (P : Exception.argument W)
    (f : nat -> Exception.JS W value) (s s1 s2 : Exception.State W)
    (e matched x : value) :
  Exception.holds s this (Exception.Err e) ->
  Exception.isErrorOf e P s = (Normal matched, s1) ->
  ToBoolean matched = true ->
  f (length (Exception.heap s1)) (Exception.allocate s1 (Exception.Err e))
  = (Normal x, s2) ->
  Exception.case this P f s
  = (Normal (length (Exception.heap s2)), Exception.allocate s2 (Exception.Ok x)).
Proof.
  intros Hholds HP Hmatched Hf. unfold Exception.case.
  rewrite (bind_normal _ _ _ (get_result_holds Hholds)).
  rewrite (bind_normal _ _ _ HP), Hmatched.
  unfold Exception.new_TryChain at 1. unfold bind at 1.
  rewrite (bind_normal _ _ _ Hf). reflexivity.
Qed.

(** X7.  In a chain of [case] calls the first that matches wins: once
    [case(P, f)] has matched and [f] has returned [x], a later
    [case(Q, g)] evaluates neither [Q] nor [g] and makes no chain, and
    [done], with or without a fallback, returns [x]. *)
Theorem case_first_match_wins (W : Type) (this : nat)
    (P : Exception.argument W) (f : nat -> Exception.JS W value)
    (s s1 s2 : Exception.State W) (e matched x : value) :
  Exception.holds s this (Exception.Err e) ->
  Exception.isErrorOf e P s = (Normal matched, s1) ->
  ToBoolean matched = true ->
  f (length (Exception.heap s1)) (Exception.allocate s1 (Exception.Err e))
  = (Normal x, s2) ->
  forall (Q : Exception.argument W) (g : nat -> Exception.JS W value)
         (arg : option (Exception.argument W)),
    (handled <- Exception.case this P f ;;
     again <- Exception.case handled Q g ;;
     Exception.done again arg) s
    = (Normal x, Exception.allocate s2 (Exception.Ok x)).
Proof.
  intros Hholds HP Hmatched Hf Q g arg.
  pose proof (@case_matched W this P f s s1 s2 e matched x Hholds HP Hmatched Hf)
    as Hcase.
  pose proof (holds_allocate_new s2 (Exception.Ok x)) as Hnew.
  rewrite (bind_normal _ _ _ Hcase).
  unfold Exception.case at 1. rewrite bind_assoc.
  rewrite (bind_normal _ _ _ (get_result_holds Hnew)). rewrite bind_ret_l.
  unfold Exception.done. rewrite (bind_normal _ _ _ (get_result_holds Hnew)).
  reflexivity.
Qed.

(** [case(TypeError, (sub) => sub.done(() => 42)).case(5, ...).done()] on
    a chain that holds [new TypeError("bad")]: the invalid predicate [5]
    is not consulted. *)
Lemma case_first_match_wins_witness :
  (handled <- Exception.case 0 Exception.TypeError_constructor
                (fun sub => Exception.done sub
                              (Some (Exception.arrow_function Exception.forty_two))) ;;
   again <- Exception.case handled (Exception.AValue (VNum 5))
              (fun sub => Exception.done sub None) ;;
   Exception.done again None) Exception.start
  = (Normal (VNum 42),
     Exception.allocate
       (Exception.allocate Exception.start (Exception.Err Exception.bad))
       (Exception.Ok (VNum 42))).
Proof.
  apply (@case_first_match_wins nat 0 Exception.TypeError_constructor
           (fun sub => Exception.done sub
                         (Some (Exception.arrow_function Exception.forty_two)))
           Exception.start Exception.start
           (Exception.allocate Exception.start (Exception.Err Exception.bad))
           Exception.bad (VBool true) (VNum 42)).
  - reflexivity.
  - reflexivity.
  - reflexivity.
  - reflexivity.
Defined.

(* ================================================================== *)
(** ** [TryAsync] *)

(** X8.  [TryAsync(f)] never throws and its promise is never rejected: it
    is fulfilled with a new chain, and the caller goes on at the tick of
    the call.  The chain holds [Err e] when [f] throws [e] at once or
    returns a promise rejected with [e], and [Ok v] when [f] returns a
    promise fulfilled with [v] or a plain [v].  The promise is settled at
    the tick at which [f] threw, or later than the tick at which [f]
    returned. *)
Theorem TryAsync_never_rejects (W : Type) (f : ExceptionAsync.JS W value)
    (s : Exception.State (ExceptionAsync.Timed W)) :
  exists settle s',
    ExceptionAsync.TryAsync f s
    = (Normal (VPromise settle true (VRef (length (Exception.heap (snd (f s)))))), s')
    /\ ExceptionAsync.tick (Exception.world s') = ExceptionAsync.tick (Exception.world s)
    /\ Exception.holds s' (length (Exception.heap (snd (f s))))
         match fst (f s) with
         | Thrown e => Exception.Err e
         | Normal (VPromise _ true v) => Exception.Ok v
         | Normal (VPromise _ false e) => Exception.Err e
         | Normal v => Exception.Ok v
         end
    /\ match fst (f s) with
       | Thrown _ => settle = ExceptionAsync.tick (Exception.world (snd (f s)))
       | Normal _ => ExceptionAsync.tick (Exception.world (snd (f s))) < settle
       end.
Proof.
  unfold ExceptionAsync.TryAsync, bind.
  destruct (f s) as [[v|e] s1]; simpl.
  - destruct v as [| |b|n|str|chain message|address|settle_at [|] payload];
      simpl; eexists; eexists;
      (split; [reflexivity|]); (split; [reflexivity|]);
      (split; [unfold Exception.holds; simpl;
               rewrite nth_error_app2 by lia; rewrite Nat.sub_diag; reflexivity|]);
      lia.
  - eexists; eexists. split; [reflexivity|]. split; [reflexivity|].
    split; [|reflexivity].
    unfold Exception.holds; simpl.
    rewrite nth_error_app2 by lia. rewrite Nat.sub_diag. reflexivity.
Qed.

(** [TryAsync] of a function that returns a rejected promise, of one that
    throws, and of one that returns a fulfilled promise. *)
Example TryAsync_cases :
  ExceptionAsync.TryAsync (ret (VPromise 0 false (VStr "boom"))) ExceptionAsync.initial
  = (Normal (VPromise 1 true (VRef 0)),
     {| Exception.heap := [Exception.Err (VStr "boom")];
        Exception.world := {| ExceptionAsync.program := 0; ExceptionAsync.tick := 0 |} |})
  /\ ExceptionAsync.TryAsync (throw (VStr "boom")) ExceptionAsync.initial
     = (Normal (VPromise 0 true (VRef 0)),
        {| Exception.heap := [Exception.Err (VStr "boom")];
           Exception.world := {| ExceptionAsync.program := 0; ExceptionAsync.tick := 0 |} |})
  /\ ExceptionAsync.TryAsync (ret (Promise_resolve (VNum 7))) ExceptionAsync.initial
     = (Normal (VPromise 1 true (VRef 0)),
        {| Exception.heap := [Exception.Ok (VNum 7)];
           Exception.world := {| ExceptionAsync.program := 0; ExceptionAsync.tick := 0 |} |}).
Proof. repeat split. Qed.

(* ================================================================== *)
(** ** Pipelines: the two strategies of [AsyncThunk.done] *)

Section Strategies.

Context {W : Type}.

Implicit Types (s : State W) (f : callback W) (steps : list (AsyncStep W)).

Lemma AsyncThunk_run_steps_app steps1 steps2 : forall x s,
  AsyncThunk.run_steps (steps1 ++ steps2) x s
  = bind (AsyncThunk.run_steps steps1 x) (AsyncThunk.run_steps steps2) s.
Proof.
  induction steps1 as [|[k f] steps1 IH]; intros x s; simpl.
  - reflexivity.
  - rewrite bind_assoc. destruct (invoke f x s) as [[v|e] s1] eqn:Hf.
    + rewrite !(bind_normal _ _ _ Hf). apply IH.
    + rewrite !(bind_thrown _ _ _ Hf). reflexivity.
Qed.

Lemma forallb_asAsyncStep (fs : list (SyncStep W)) :
  forallb (fun step : AsyncStep W => negb (fst step)) (List.map asAsyncStep fs) = true.
Proof. induction fs as [|f fs IH]; simpl; [reflexivity|exact IH]. Qed.

(** The awaiting loop in a prompt run: its value, the program state, the
    clock and the count of invoked bodies. *)
Lemma run_steps_await_prompt_to steps : forall x s v w',
  Runs.prompt_run_to steps x (world s) v w' ->
  AsyncThunk.run_steps_await steps x s
  = (Normal v, {| world := w'; now := now s + Client.count_async steps;
                  calls := calls s + length steps |}).
Proof.
  induction steps as [|[isAsync f] steps IH]; intros x s v w' Hrun; simpl in *.
  - destruct Hrun as [-> <-]. unfold ret, Client.count_async. simpl.
    rewrite !Nat.add_0_r. destruct s; reflexivity.
  - destruct Hrun as (y & w1 & Hf & Hrest).
    set (s1 := {| world := w1; now := (if isAsync then S (now s) else now s);
                  calls := S (calls s) |}).
    assert (Hstep : (if isAsync then p <- invoke f x ;; Machine.await p
                     else invoke f x) s = (Normal y, s1)).
    { destruct isAsync.
      - erewrite bind_normal by (apply invoke_normal; exact Hf).
        unfold Machine.await, Promise_resolve. simpl. rewrite Nat.max_0_r. reflexivity.
      - apply invoke_normal. exact Hf. }
    rewrite (bind_normal _ _ _ Hstep), (IH y s1 v w' Hrest).
    unfold Client.count_async. simpl. f_equal. f_equal; destruct isAsync; simpl; lia.
Qed.

(** The synchronous loop over steps none of which is asynchronous. *)
Lemma run_steps_prompt_to steps : forall x s v w',
  forallb (fun step : AsyncStep W => negb (fst step)) steps = true ->
  Runs.prompt_run_to steps x (world s) v w' ->
  AsyncThunk.run_steps steps x s
  = (Normal v, {| world := w'; now := now s; calls := calls s + length steps |}).
Proof.
  induction steps as [|[k f] steps IH]; intros x s v w' Hsync Hrun; simpl in *.
  - destruct Hrun as [-> <-]. unfold ret. rewrite Nat.add_0_r. destruct s; reflexivity.
  - destruct k; [discriminate|]. destruct Hrun as (y & w1 & Hf & Hrest).
    erewrite bind_normal by (apply invoke_normal; exact Hf).
    rewrite (IH y {| world := w1; now := now s; calls := S (calls s) |} v w' Hsync Hrest).
    simpl. f_equal. f_equal. lia.
Qed.

End Strategies.

(** X9.  The fast path of [AsyncThunk.done] is taken exactly when the
    chain has one asynchronous step and this step is the last; in
    particular never for a chain without steps. *)
Theorem isSimplePipeline_iff (W : Type) (steps : list (AsyncStep W)) :
  AsyncThunk.isSimplePipeline steps
  = (Client.count_async steps =? 1) && negb (Client.async_before_last steps).
Proof.
  destruct (last_cases steps) as [->|(pre & [k f] & ->)]; [reflexivity|].
  transitivity (k && forallb (fun step : AsyncStep W => negb (fst step)) pre);
    [apply isSimplePipeline_last|].
  unfold Client.async_before_last.
  rewrite removelast_last, count_async_app.
  destruct (existsb (fun step : AsyncStep W => fst step) pre) eqn:Hpre.
  - apply some_asynchronous in Hpre as [-> _].
    rewrite andb_false_r, andb_false_r. reflexivity.
  - apply all_synchronous in Hpre as [-> ->].
    destruct k; reflexivity.
Qed.

(** X10.  The first [pipeAwait] on a [Thunk] always gives a chain for the
    fast path: [t.pipeAwait(f).done()] runs the steps of [t] as
    [t.done()] does and then returns what [f] returns as it is, without
    any tick; what a step throws, it throws at once. *)
Theorem Thunk_pipeAwait_done (W : Type) (t : Thunk.Thunk W) (f : callback W)
    (s : State W) :
  (a <- Thunk.pipeAwait t f ;; AsyncThunk.done a) s
  = (x <- Thunk.done t ;; invoke f x) s.
Proof.
  destruct t as [fs]. unfold Thunk.pipeAwait. rewrite bind_ret_l.
  unfold AsyncThunk.done, Thunk.done. cbn [AsyncThunk._steps Thunk._steps].
  rewrite isSimplePipeline_last, forallb_asAsyncStep. cbn [andb].
  rewrite AsyncThunk_run_steps_app.
  destruct (Thunk.run_steps fs VUndefined s) as [[x|e] s1] eqn:Hrun.
  - pose proof Hrun as Hrun'. rewrite <- run_steps_asAsyncStep in Hrun'.
    rewrite (bind_normal _ _ _ Hrun), (bind_normal _ _ _ Hrun').
    cbn [AsyncThunk.run_steps].
    unfold bind, ret. destruct (invoke f x s1) as [[v|e] s2]; reflexivity.
  - pose proof Hrun as Hrun'. rewrite <- run_steps_asAsyncStep in Hrun'.
    rewrite (bind_thrown _ _ _ Hrun), (bind_thrown _ _ _ Hrun'). reflexivity.
Qed.

(** X11.  On the slow path [AsyncThunk.done] never throws: it returns a
    promise and the caller goes on at the tick of the call.  When a step
    throws [e], or the promise of an asynchronous step is rejected with
    [e], the promise of [done()] is rejected with [e] at that tick, and the
    steps after it are not invoked. *)
Theorem slow_path_never_throws (W : Type) (a : AsyncThunk.AsyncThunk W) (s : State W) :
  AsyncThunk.isSimplePipeline (AsyncThunk._steps a) = false ->
  (exists settle fulfilled payload s',
      AsyncThunk.done a s = (Normal (VPromise settle fulfilled payload), s')
      /\ now s' = now s)
  /\ (forall e s1,
      AsyncThunk.run_steps_await (AsyncThunk._steps a) VUndefined s = (Thrown e, s1) ->
      AsyncThunk.done a s
      = (Normal (VPromise (now s1) false e),
         {| world := world s1; now := now s; calls := calls s1 |}))
  /\ (forall (before after : list (AsyncStep W)) (isAsync : bool) (f : callback W)
             x s1 e w',
      AsyncThunk._steps a = before ++ (isAsync, f) :: after ->
      AsyncThunk.run_steps_await before VUndefined s = (Normal x, s1) ->
      f x (world s1) = (Thrown e, w') ->
      AsyncThunk.done a s
      = (Normal (VPromise (now s1) false e),
         {| world := w'; now := now s; calls := S (calls s1) |})).
Proof.
  intros Hslow. destruct a as [steps]. simpl in *.
  assert (Hthrown : forall e s1,
    AsyncThunk.run_steps_await steps VUndefined s = (Thrown e, s1) ->
    AsyncThunk.done (AsyncThunk.new steps) s
    = (Normal (VPromise (now s1) false e),
       {| world := world s1; now := now s; calls := calls s1 |})).
  { intros e s1 Hrun. unfold AsyncThunk.done. simpl. rewrite Hslow.
    apply (@async_function_eq W _ s (Thrown e) s1).
    apply bind_thrown. exact Hrun. }
  split; [|split].
  - unfold AsyncThunk.done. simpl. rewrite Hslow. unfold async_function.
    destruct ((current <- AsyncThunk.run_steps_await steps VUndefined ;;
               (if is_thenable current then throw AsyncThunk.usage_error
                else ret current)) s) as [[v|e] s1].
    + destruct v; repeat eexists.
    + repeat eexists.
  - exact Hthrown.
  - intros before after isAsync f x s1 e w' Hsteps Hbefore Hf.
    rewrite (Hthrown e {| world := w'; now := now s1; calls := S (calls s1) |});
      [reflexivity|].
    rewrite Hsteps, run_steps_await_app, (bind_normal _ _ _ Hbefore). simpl.
    apply bind_thrown.
    assert (Hinvoke : invoke f x s1
                      = (Thrown e, {| world := w'; now := now s1; calls := S (calls s1) |})).
    { unfold invoke. rewrite Hf. reflexivity. }
    destruct isAsync; [apply bind_thrown|]; exact Hinvoke.
Qed.

(** [Do(0).pipeAwait((it) => Promise.resolve(it + 1)).pipe(fails).pipe(...)]
    and a chain whose first asynchronous step returns a rejected
    promise. *)
Lemma slow_path_never_throws_witness :
  AsyncThunk.done
    (AsyncThunk.new [(false, Client.seed (VNum 0)); (true, Client.add_resolved 1);
                     (false, Runs.fails); (false, Client.mark_called)])
    Client.initial
  = (Normal (VPromise 1 false (VStr "boom")), {| world := 0; now := 0; calls := 3 |})
  /\ AsyncThunk.done
       (AsyncThunk.new [(false, Client.seed (VNum 0)); (true, Runs.rejects);
                        (false, Client.mark_called)])
       Client.initial
     = (Normal (VPromise 1 false (VStr "boom")), {| world := 0; now := 0; calls := 2 |}).
Proof.
  split.
  - refine ((proj2 (proj2 (@slow_path_never_throws nat
              (AsyncThunk.new [(false, Client.seed (VNum 0));
                               (true, Client.add_resolved 1);
                               (false, Runs.fails); (false, Client.mark_called)])
              Client.initial eq_refl)))
              [(false, Client.seed (VNum 0)); (true, Client.add_resolved 1)]
              [(false, Client.mark_called)] false Runs.fails
              (VNum 1) {| world := 0; now := 1; calls := 2 |} (VStr "boom") 0
              eq_refl eq_refl eq_refl).
  - refine (proj1 (proj2 (@slow_path_never_throws nat
              (AsyncThunk.new [(false, Client.seed (VNum 0)); (true, Runs.rejects);
                               (false, Client.mark_called)])
              Client.initial eq_refl))
              (VStr "boom") {| world := 0; now := 1; calls := 2 |} eq_refl).
Defined.

Section PromptResults.

Context {W : Type}.

Lemma prompt_run_to_app (pre post : list (AsyncStep W)) : forall x w v w',
  Runs.prompt_run_to (pre ++ post) x w v w' ->
  exists y w1,
    Runs.prompt_run_to pre x w y w1 /\ Runs.prompt_run_to post y w1 v w'.
Proof.
  induction pre as [|[k f] pre IH]; intros x w v w' Hrun; simpl in *.
  - exists x, w. auto.
  - destruct Hrun as (y & w1 & Hf & Hrest).
    destruct (IH y w1 v w' Hrest) as (z & w2 & Hpre & Hpost).
    exists z, w2. split; [|exact Hpost]. exists y, w1. auto.
Qed.

Lemma Thunk_run_steps_app2 (fs gs : list (SyncStep W)) : forall x s,
  Thunk.run_steps (fs ++ gs) x s = bind (Thunk.run_steps fs x) (Thunk.run_steps gs) s.
Proof.
  induction fs as [|f fs IH]; intros x s; simpl.
  - reflexivity.
  - rewrite bind_assoc. destruct (invoke f x s) as [[v|e] s1] eqn:Hf.
    + rewrite !(bind_normal _ _ _ Hf). apply IH.
    + rewrite !(bind_thrown _ _ _ Hf). reflexivity.
Qed.

End PromptResults.

(** X12.  [await a.done()] in a run where every step returns normally and
    every asynchronous step returns a promise that is already fulfilled:
    whichever strategy [done] takes, the result is the value of the last
    step, the steps having run once each, in order, on the values of the
    promises; the strategies differ in the ticks only, one on the fast
    path, and one more than there are asynchronous steps on the slow
    path. *)
Theorem await_done_result (W : Type) (a : AsyncThunk.AsyncThunk W) (s : State W)
    (v : value) (w' : W) :
  Runs.prompt_run_to (AsyncThunk._steps a) VUndefined (world s) v w' ->
  is_thenable v = false ->
  (p <- AsyncThunk.done a ;; Machine.await p) s
  = (Normal v,
     {| world := w';
        now := now s + (if AsyncThunk.isSimplePipeline (AsyncThunk._steps a) then 1
                        else Client.count_async (AsyncThunk._steps a) + 1);
        calls := calls s + length (AsyncThunk._steps a) |}).
Proof.
  destruct a as [steps]. cbn [AsyncThunk._steps]. intros Hrun Hplain.
  unfold AsyncThunk.done. cbn [AsyncThunk._steps].
  destruct (AsyncThunk.isSimplePipeline steps) eqn:Hsimple.
  - destruct (last_cases steps) as [->|(pre & [k f] & ->)]; [discriminate|].
    assert (Hshape : k && forallb (fun step : AsyncStep W => negb (fst step)) pre = true)
      by (rewrite <- Hsimple; symmetry; apply isSimplePipeline_last).
    apply andb_true_iff in Hshape as [-> Hsync].
    destruct (prompt_run_to_app pre [(true, f)] _ _ _ _ Hrun)
      as (y & w1 & Hpre & Hlast).
    simpl in Hlast. destruct Hlast as (v0 & w2 & Hf & -> & ->).
    assert (Hdone : AsyncThunk.run_steps (pre ++ [(true, f)]) VUndefined s
                    = (Normal (Promise_resolve v),
                       {| world := w'; now := now s;
                          calls := S (calls s + length pre) |})).
    { rewrite AsyncThunk_run_steps_app.
      rewrite (bind_normal _ _ _ (@run_steps_prompt_to W pre VUndefined s y w1 Hsync Hpre)).
      cbn [AsyncThunk.run_steps].
      erewrite bind_normal by (apply invoke_normal; exact Hf). reflexivity. }
    rewrite (bind_normal _ _ _ Hdone). unfold Machine.await, Promise_resolve.
    cbn [world now calls]. rewrite Nat.max_0_r, length_app. simpl length.
    f_equal. f_equal; lia.
  - pose proof (@run_steps_await_prompt_to W steps VUndefined s v w' Hrun) as Hloop.
    erewrite bind_normal
      by (apply async_function_eq; rewrite (bind_normal _ _ _ Hloop), Hplain;
          reflexivity).
    destruct v; try discriminate Hplain;
      unfold Machine.await; cbn [world now calls]; f_equal; f_equal; lia.
Qed.

(** The test [Asynchronous pipe], on the slow path, and
    [await Do(42).pipe((it) => it + 1).pipeAwait((it) => Promise.resolve(it * 2)).done()]
    on the fast path. *)
Lemma await_done_result_witness :
  (p <- AsyncThunk.done
          (AsyncThunk.new [(false, Client.seed (VNum 42)); (true, Client.add_resolved 0);
                           (false, Client.add 1); (true, Client.mul_resolved 2)]) ;;
   Machine.await p) Client.initial
  = (Normal (VNum 86), {| world := 0; now := 3; calls := 4 |})
  /\ (p <- AsyncThunk.done
             (AsyncThunk.new [(false, Client.seed (VNum 42)); (false, Client.add 1);
                              (true, Client.mul_resolved 2)]) ;;
      Machine.await p) Client.initial
     = (Normal (VNum 86), {| world := 0; now := 1; calls := 3 |}).
Proof.
  split.
  - apply (@await_done_result nat
             (AsyncThunk.new [(false, Client.seed (VNum 42));
                              (true, Client.add_resolved 0);
                              (false, Client.add 1); (true, Client.mul_resolved 2)])
             Client.initial (VNum 86) 0).
    + simpl. repeat (eexists; eexists; split; [reflexivity|]). split; reflexivity.
    + reflexivity.
  - apply (@await_done_result nat
             (AsyncThunk.new [(false, Client.seed (VNum 42)); (false, Client.add 1);
                              (true, Client.mul_resolved 2)])
             Client.initial (VNum 86) 0).
    + simpl. repeat (eexists; eexists; split; [reflexivity|]). split; reflexivity.
    + reflexivity.
Defined.

(* ================================================================== *)
(** ** Pipelines: [Thunk] *)

(** X13.  [Thunk.done()] stops at the first step that throws: what the
    step throws is thrown by [done()], and no later step is invoked. *)
Theorem Thunk_done_stops_at_throw (W : Type) (before after : list (SyncStep W))
    (f : SyncStep W) (s s1 : State W) (x e : value) (w' : W) :
  Thunk.run_steps before VUndefined s = (Normal x, s1) ->
  f x (world s1) = (Thrown e, w') ->
  Thunk.done (Thunk.new (before ++ f :: after)) s
  = (Thrown e, {| world := w'; now := now s; calls := S (calls s1) |}).
Proof.
  intros Hbefore Hf. unfold Thunk.done. cbn [Thunk._steps].
  rewrite Thunk_run_steps_app2, (bind_normal _ _ _ Hbefore).
  cbn [Thunk.run_steps]. apply bind_thrown.
  unfold invoke. rewrite Hf.
  pose proof (Thunk_run_steps_now before VUndefined s) as Hnow.
  rewrite Hbefore in Hnow. simpl in Hnow. rewrite Hnow. reflexivity.
Qed.

(** [Do(42).pipe((it) => it + 1).pipe(fails).pipe(mark)]: the mark is not
    set. *)
Lemma Thunk_done_stops_at_throw_witness :
  Thunk.done (Thunk.new ([Client.seed (VNum 42); Client.add 1]
                         ++ Runs.fails :: [Client.mark_called])) Client.initial
  = (Thrown (VStr "boom"), {| world := 0; now := 0; calls := 3 |}).
Proof.
  apply (@Thunk_done_stops_at_throw nat [Client.seed (VNum 42); Client.add 1]
           [Client.mark_called] Runs.fails Client.initial
           {| world := 0; now := 0; calls := 2 |} (VNum 43) (VStr "boom") 0).
  - reflexivity.
  - reflexivity.
Defined.

(** X14.  [t.tap(f).done()] runs [t], gives its result to [f] and returns
    the result of [t], not that of [f]; what [f] throws is thrown.
    [t.rcall(g, ...args).done()] runs [t] and returns [g] called on its
    result as receiver with [args]. *)
Theorem Thunk_tap_rcall_done (W : Type) (t : Thunk.Thunk W) (s : State W) :
  (forall f : callback W,
      (t' <- Thunk.tap t f ;; Thunk.done t') s
      = (x <- Thunk.done t ;; _ <- invoke f x ;; ret x) s)
  /\ (forall (g : value -> list value -> W -> completion value * W) (args : list value),
      (t' <- Thunk.rcall t g args ;; Thunk.done t') s
      = (x <- Thunk.done t ;; invoke (fun this => g this args) x) s).
Proof.
  destruct t as [fs]. split.
  - intros f. unfold Thunk.tap, Thunk.pipe. rewrite bind_ret_l.
    unfold Thunk.done. cbn [Thunk._steps]. rewrite Thunk_run_steps_app.
    unfold bind. destruct (Thunk.run_steps fs VUndefined s) as [[x|e] s1];
      [|reflexivity].
    unfold invoke, ret. destruct (f x (world s1)) as [[y|e] w1]; reflexivity.
  - intros g args. unfold Thunk.rcall, Thunk.pipe. rewrite bind_ret_l.
    unfold Thunk.done. cbn [Thunk._steps]. apply Thunk_run_steps_app.
Qed.

(** The examples of the documentation: [Do(42).tap(...).pipe((it) => it + 1)]
    is [43], with the side effect done once, and
    [Do(42).pipe((it) => it + 1).rcall(double)] is [86]. *)
Example tap_and_rcall_examples :
  (t0 <- Do (VNum 42) ;;
   t1 <- Thunk.tap t0 Client.mark_called ;;
   t2 <- Thunk.pipe t1 (Client.add 1) ;;
   Thunk.done t2) Client.initial
  = (Normal (VNum 43), {| world := 1; now := 0; calls := 3 |})
  /\ (t0 <- Do (VNum 42) ;;
      t1 <- Thunk.pipe t0 (Client.add 1) ;;
      t2 <- Thunk.rcall t1 Runs.double [] ;;
      Thunk.done t2) Client.initial
     = (Normal (VNum 86), {| world := 0; now := 0; calls := 3 |}).
Proof. split; reflexivity. Qed.

(* ================================================================== *)
(** ** [tap.ts] *)

(** X16.  [tap(obj, f)] calls [f] on [obj] once and returns [obj], whatever
    [f] returns; what [f] throws is thrown.  [tapMe] does the same on its
    receiver, and [Do(obj).tap(f).done()] has the same result and the same
    effect on the program. *)
Theorem tap_returns_its_argument (W : Type) (obj : value) (f : callback W)
    (s : State W) :
  Tap.tap obj f s
  = match f obj (world s) with
    | (Normal _, w') =>
        (Normal obj, {| world := w'; now := now s; calls := S (calls s) |})
    | (Thrown e, w') =>
        (Thrown e, {| world := w'; now := now s; calls := S (calls s) |})
    end
  /\ Tap.tapMe obj f s = Tap.tap obj f s
  /\ fst ((t <- Do obj ;; t' <- Thunk.tap t f ;; Thunk.done t') s)
     = fst (Tap.tap obj f s)
  /\ world (snd ((t <- Do obj ;; t' <- Thunk.tap t f ;; Thunk.done t') s))
     = world (snd (Tap.tap obj f s)).
Proof.
  unfold Tap.tap, Tap.tapMe, Do, Thunk.tap, Thunk.pipe, Thunk.done, bind, ret, invoke.
  simpl. unfold bind, ret, invoke. simpl.
  destruct (f obj (world s)) as [[y|e] w1]; repeat split.
Qed.

(** X17.  [tapAsync(obj, f)], for an [obj] that is no thenable, never
    throws: it calls [f] on [obj] at once and returns a promise.  The
    promise is fulfilled with [obj] one tick after the promise of [f] is
    fulfilled, rejected with the same reason one tick after the promise of
    [f] is rejected, and rejected at the tick of the call with what [f]
    throws.  [tapMeAsync] does the same on its receiver. *)
Theorem tapAsync_settles (W : Type) (obj : value) (f : callback W) (s : State W) :
  is_thenable obj = false ->
  Tap.tapAsync obj f s
  = (Normal
       match fst (f obj (world s)) with
       | Thrown e => VPromise (now s) false e
       | Normal (VPromise settle_at true _) =>
           VPromise (S (Nat.max (now s) settle_at)) true obj
       | Normal (VPromise settle_at false e) =>
           VPromise (S (Nat.max (now s) settle_at)) false e
       | Normal _ => VPromise (S (now s)) true obj
       end,
     {| world := snd (f obj (world s)); now := now s; calls := S (calls s) |})
  /\ Tap.tapMeAsync obj f s = Tap.tapAsync obj f s.
Proof.
  intros Hplain. split; [|reflexivity].
  unfold Tap.tapAsync, async_function, bind, invoke, Machine.await, ret.
  destruct (f obj (world s)) as [[y|e] w1]; simpl; [|reflexivity].
  destruct y as [| |b|n|str|chain message|address|settle_at [|] payload]; simpl;
    destruct obj; try discriminate Hplain; reflexivity.
Qed.

(** [tapAsync(42, (it) => Promise.resolve(it + 1))] and
    [tapAsync(42, fails)]. *)
Lemma tapAsync_settles_witness :
  Tap.tapAsync (VNum 42) (Client.add_resolved 1) Client.initial
  = (Normal (VPromise 1 true (VNum 42)), {| world := 0; now := 0; calls := 1 |})
  /\ Tap.tapAsync (VNum 42) Runs.fails Client.initial
     = (Normal (VPromise 0 false (VStr "boom")), {| world := 0; now := 0; calls := 1 |}).
Proof.
  split.
  - apply (proj1 (@tapAsync_settles nat (VNum 42) (Client.add_resolved 1)
                    Client.initial eq_refl)).
  - apply (proj1 (@tapAsync_settles nat (VNum 42) Runs.fails Client.initial eq_refl)).
Defined.

(* ================================================================== *)
(** ** Pipelines: which chains take the slow path *)

(** X18.  Once a chain has an asynchronous step, every further method
    call, synchronous or asynchronous, gives a chain for the slow path:
    its [done()] returns a promise and never throws. *)
Theorem extended_AsyncThunk_is_slow (W : Type) (a : AsyncThunk.AsyncThunk W)
    (m : Client.method_call W) (s : State W) :
  1 <= Client.count_async (AsyncThunk._steps a) ->
  exists a',
    Client.call_method (Client.IsAsyncThunk a) m s = (Normal (Client.IsAsyncThunk a'), s)
    /\ AsyncThunk._steps a' = AsyncThunk._steps a ++ [Client.step_of m]
    /\ AsyncThunk.isSimplePipeline (AsyncThunk._steps a') = false
    /\ exists settle fulfilled payload s',
         AsyncThunk.done a' s = (Normal (VPromise settle fulfilled payload), s').
Proof.
  intros Hasync. destruct a as [steps]. cbn [AsyncThunk._steps] in *.
  exists (AsyncThunk.new (steps ++ [Client.step_of m])).
  assert (Hslow : AsyncThunk.isSimplePipeline (steps ++ [Client.step_of m]) = false).
  { transitivity (Client.is_await m
                  && forallb (fun step : AsyncStep W => negb (fst step)) steps);
      [apply isSimplePipeline_last|].
    destruct (existsb (fun step : AsyncStep W => fst step) steps) eqn:Hsome.
    - apply some_asynchronous in Hsome as [-> _]. apply andb_false_r.
    - apply all_synchronous in Hsome as [_ Hzero]. lia. }
  split; [destruct m; reflexivity|]. split; [reflexivity|]. split; [exact Hslow|].
  unfold AsyncThunk.done. cbn [AsyncThunk._steps]. rewrite Hslow.
  unfold async_function.
  destruct ((current <- AsyncThunk.run_steps_await (steps ++ [Client.step_of m]) VUndefined ;;
             (if is_thenable current then throw AsyncThunk.usage_error
              else ret current)) s) as [[v|e] s1].
  - destruct v; repeat eexists.
  - repeat eexists.
Qed.

(** [Do(0).pipeAwait((it) => Promise.resolve(it + 1))] extended by
    [.pipeAwait(fails)]: [done()] returns a rejected promise. *)
Lemma extended_AsyncThunk_is_slow_witness :
  exists a',
    Client.call_method
      (Client.IsAsyncThunk
         (AsyncThunk.new [(false, Client.seed (VNum 0)); (true, Client.add_resolved 1)]))
      (Client.Call_pipeAwait Runs.fails) Client.initial
    = (Normal (Client.IsAsyncThunk a'), Client.initial)
    /\ AsyncThunk._steps a'
       = [(false, Client.seed (VNum 0)); (true, Client.add_resolved 1)]
         ++ [Client.step_of (Client.Call_pipeAwait Runs.fails)]
    /\ AsyncThunk.isSimplePipeline (AsyncThunk._steps a') = false
    /\ exists settle fulfilled payload s',
         AsyncThunk.done a' Client.initial
         = (Normal (VPromise settle fulfilled payload), s').
Proof.
  apply (@extended_AsyncThunk_is_slow nat
           (AsyncThunk.new [(false, Client.seed (VNum 0)); (true, Client.add_resolved 1)])
           (Client.Call_pipeAwait Runs.fails) Client.initial).
  unfold Client.count_async. simpl. lia.
Defined.

(* ================================================================== *)
(** ** [pick] and [case] at [Error] and at an arrow function *)

(** C4.  [pick] at the predicates that [isErrorOf] misjudges.
    [Try(() => { throw e }).pick(Error)] returns a new chain that holds
    [Err e] for every [e], also for [42], which is no instance of [Error]:
    it never throws [e] again.  [Try(() => { throw e }).pick((e) => ...)],
    for every arrow function, throws the TypeError of
    [Object.getPrototypeOf(undefined)]: it neither returns a chain when
    the function would answer [true], as [(e) => e instanceof TypeError]
    does on [new TypeError("bad")], nor throws [e] when it would answer
    [false], as on [42]. *)
Theorem pick_Error_and_arrow_function (W : Type) :
  (forall (e : value) (s : Exception.State W),
      (chain <- Exception.Try (Exception.Throw e) ;;
       Exception.pick chain Exception.Error_constructor) s
      = (Normal (length (Exception.heap (Exception.allocate s (Exception.Err e)))),
         Exception.allocate (Exception.allocate s (Exception.Err e)) (Exception.Err e)))
  /\ ExceptionAsync.is_instance (VNum 42) Error_prototype = false
  /\ (forall (call : value -> Exception.JS W value) (e : value) (s : Exception.State W),
      (chain <- Exception.Try (Exception.Throw e) ;;
       Exception.pick chain (Exception.arrow_function call)) s
      = (Thrown (construct TypeError_prototype
                   "Cannot convert undefined or null to object"),
         Exception.allocate s (Exception.Err e)))
  /\ (forall s : Exception.State W,
      Exception.is_TypeError Exception.bad s = (Normal (VBool true), s)
      /\ Exception.is_TypeError (VNum 42) s = (Normal (VBool false), s)).
Proof.
  split; [|split; [|split]].
  - intros e s. rewrite Try_bind. simpl. unfold Exception.pick.
    rewrite (bind_normal _ _ _ (get_new s (Exception.Err e))). reflexivity.
  - reflexivity.
  - intros call e s. rewrite Try_bind. simpl. unfold Exception.pick.
    rewrite (bind_normal _ _ _ (get_new s (Exception.Err e))). reflexivity.
  - intros s. split; reflexivity.
Qed.

(** C5.  [case] at the predicates that [isErrorOf] misjudges.
    [Try(() => { throw e }).case(Error, f)] calls the handler [f], with a
    new chain that holds [Err e], for every [e], also for [42], which is
    no instance of [Error]: it never passes the chain through.
    [Try(() => { throw e }).case((e) => ..., f)], for every arrow
    function, throws the TypeError of [Object.getPrototypeOf(undefined)]
    and does not call [f]: it neither handles [e] when the function would
    answer [true] nor passes the chain through without raising when it
    would answer [false]. *)
Theorem case_Error_and_arrow_function (W : Type) :
  (forall (e : value) (f : nat -> Exception.JS W value) (s : Exception.State W),
      (chain <- Exception.Try (Exception.Throw e) ;;
       Exception.case chain Exception.Error_constructor f) s
      = match f (length (Exception.heap (Exception.allocate s (Exception.Err e))))
                (Exception.allocate (Exception.allocate s (Exception.Err e))
                   (Exception.Err e)) with
        | (Normal x, s2) =>
            (Normal (length (Exception.heap s2)), Exception.allocate s2 (Exception.Ok x))
        | (Thrown x, s2) => (Thrown x, s2)
        end)
  /\ ExceptionAsync.is_instance (VNum 42) Error_prototype = false
  /\ (forall (call : value -> Exception.JS W value) (e : value)
             (f : nat -> Exception.JS W value) (s : Exception.State W),
      (chain <- Exception.Try (Exception.Throw e) ;;
       Exception.case chain (Exception.arrow_function call) f) s
      = (Thrown (construct TypeError_prototype
                   "Cannot convert undefined or null to object"),
         Exception.allocate s (Exception.Err e)))
  /\ (forall s : Exception.State W,
      Exception.is_TypeError Exception.bad s = (Normal (VBool true), s)
      /\ Exception.is_TypeError (VNum 42) s = (Normal (VBool false), s)).
Proof.
  split; [|split; [|split]].
  - intros e f s. rewrite Try_bind. simpl. unfold Exception.case.
    rewrite (bind_normal _ _ _ (get_new s (Exception.Err e))).
    unfold bind. simpl.
    destruct (f (length (Exception.heap s ++ [Exception.Err e]))
                (Exception.allocate (Exception.allocate s (Exception.Err e))
                   (Exception.Err e))) as [[x|x] s2]; reflexivity.
  - reflexivity.
  - intros call e f s. rewrite Try_bind. simpl. unfold Exception.case.
    rewrite (bind_normal _ _ _ (get_new s (Exception.Err e))). reflexivity.
  - intros s. split; reflexivity.
Qed.

(** The failing inputs, evaluated: [42] thrown and picked or handled by
    [Error], and [new TypeError("bad")] against
    [(e) => e instanceof TypeError]. *)
Example pick_and_case_failing_inputs :
  (chain <- Exception.Try (Exception.Throw (VNum 42)) ;;
   Exception.pick chain Exception.Error_constructor) Exception.start
  = (Normal 3,
     {| Exception.heap := [Exception.Err Exception.bad; Exception.Ok (VNum 1);
                           Exception.Err (VNum 42); Exception.Err (VNum 42)];
        Exception.world := 0 |})
  /\ (chain <- Exception.Try (Exception.Throw (VNum 42)) ;;
      handled <- Exception.case chain Exception.Error_constructor
                   (fun sub => Exception.done sub
                                 (Some (Exception.arrow_function Exception.forty_two))) ;;
      Exception.done handled None) Exception.start
     = (Normal (VNum 42),
        {| Exception.heap := [Exception.Err Exception.bad; Exception.Ok (VNum 1);
                              Exception.Err (VNum 42); Exception.Err (VNum 42);
                              Exception.Ok (VNum 42)];
           Exception.world := 0 |})
  /\ fst (Exception.pick 0 (Exception.arrow_function Exception.is_TypeError)
            Exception.start)
     = Thrown (construct TypeError_prototype "Cannot convert undefined or null to object")
  /\ fst (Exception.case 0 (Exception.arrow_function Exception.is_TypeError)
            (fun sub => Exception.done sub None) Exception.start)
     = Thrown (construct TypeError_prototype "Cannot convert undefined or null to object")
  /\ Exception.ToString Exception.bad = "TypeError: bad"%string.
Proof. repeat split. Qed.
